(** * mypets-api: the aggregate queries, the paged lists, the CRUD guards
      and the translation enrichment of the NestJS services.

    Sources embedded here:
    - [src/animal/animal.service.ts]   (AnimalService)
    - [src/animal/animal.resolver.ts]  (AnimalResolver)
    - [src/person/person.service.ts]   (PersonService)
    - [src/person/person.resolver.ts]  (PersonResolver)
    - [src/translation/translation.helper.ts] (TranslationHelper)
    with the entities, inputs and models they use.

    The services are TypeScript; the values they handle are JavaScript
    values.  Numbers are modelled by [number] (the finite values are
    rationals; [NaN] and [-Infinity] are the two other values the code
    produces), dates by their time value in milliseconds, strings by
    [string].  A piece of code that can throw returns a [Completion].

    The read-only queries make one repository call and compute on its
    rows: the model takes what the call completes with as an argument.
    The queries that spread the rows into [Math.max] are given twice:
    without the limit an engine puts on the arguments of a call, and in
    [Engine] with that limit as a parameter.
    The methods that look a record up and write it run against a
    [Database] that they thread ([Async]).  The translation service is
    reached through [fetch], a parameter. *)

From Stdlib Require Import ZArith QArith Qminmax List String Ascii Bool Lia Lqa.
From Stdlib Require Import Permutation DecimalString.
Import ListNotations.

Set Implicit Arguments.

Close Scope Q_scope.

(* ================================================================== *)
(** * JavaScript values *)
(* ================================================================== *)

(** ** Numbers *)

(** The values of type [number] the services compute with.  Every column
    and every array length is finite; [Math.max()] of no argument is
    [-Infinity]; [Number(undefined)] is [NaN]. *)
Inductive number : Type :=
| NaN
| NegInfinity
| Finite (q : Q).

Definition of_Z (z : Z) : number := Finite (inject_Z z).

(** [array.length] *)
Definition length_of {A} (l : list A) : Z := Z.of_nat (List.length l).

(** The larger of two numbers, as [Math.max] compares them. *)
Definition max2 (a b : number) : number :=
  match a, b with
  | NaN, _ | _, NaN => NaN
  | NegInfinity, x | x, NegInfinity => x
  | Finite p, Finite q => if Qle_bool p q then Finite q else Finite p
  end.

(** [Math.max] of the numbers [xs]: starts from [-Infinity].  (The limit
    an engine puts on the number of arguments of a call is that of the
    spread call, [Engine.Math_max_spread] below.) *)
Definition Math_max (xs : list number) : number :=
  fold_left max2 xs NegInfinity.

(** [a === b] on numbers: [NaN] equals nothing. *)
Definition strict_eq (a b : number) : bool :=
  match a, b with
  | Finite p, Finite q => Qeq_bool p q
  | NegInfinity, NegInfinity => true
  | _, _ => false
  end.

(** [a > b] on numbers. *)
Definition gt (a b : number) : bool :=
  match a, b with
  | Finite p, Finite q => negb (Qle_bool p q)
  | Finite _, NegInfinity => true
  | _, _ => false
  end.

(** [a + b] on the numbers that occur as operands of [+]. *)
Definition add (a b : number) : number :=
  match a, b with
  | NaN, _ | _, NaN => NaN
  | NegInfinity, _ | _, NegInfinity => NegInfinity
  | Finite p, Finite q => Finite (p + q)
  end.

(** ** Strings *)

Local Open Scope string_scope.

(** [String(n)] for an integer, as a template literal prints an id. *)
Definition toString (z : Z) : string := NilZero.string_of_int (Z.to_int z).

(** A [string] stands for the UTF-8 bytes of the JavaScript string.  The
    case mapping is JavaScript's for a string of ASCII characters: it maps
    [A]..[Z] to [a]..[z].  It leaves the bytes from 128 on alone, where
    JavaScript maps the letters of the other alphabets too: for a string
    that holds such a byte [toLowerCase] is not the method of the
    source. *)
Definition lower_ascii (c : ascii) : ascii :=
  let n := nat_of_ascii c in
  if andb (Nat.leb 65 n) (Nat.leb n 90) then ascii_of_nat (n + 32) else c.

Fixpoint toLowerCase (s : string) : string :=
  match s with
  | EmptyString => EmptyString
  | String c rest => String (lower_ascii c) (toLowerCase rest)
  end.

(** White space as [String.prototype.trim] strips it from a string of
    ASCII characters: TAB, LF, VT, FF, CR and SPACE.  (JavaScript also
    strips the no-break space, the byte order mark and the other Unicode
    spaces, which are bytes from 128 on here.) *)
Definition is_white_space (c : ascii) : bool :=
  let n := nat_of_ascii c in
  orb (andb (Nat.leb 9 n) (Nat.leb n 13)) (Nat.eqb n 32).

Fixpoint trimStart (s : string) : string :=
  match s with
  | EmptyString => EmptyString
  | String c rest => if is_white_space c then trimStart rest else s
  end.

Fixpoint reverse_onto (s acc : string) : string :=
  match s with
  | EmptyString => acc
  | String c rest => reverse_onto rest (String c acc)
  end.

Definition reverse (s : string) : string := reverse_onto s EmptyString.

Definition trimEnd (s : string) : string := reverse (trimStart (reverse s)).

Definition trim (s : string) : string := trimEnd (trimStart s).

(** ** Dates *)

(** A [Date] is its time value: the milliseconds since the epoch.  The
    columns hold valid dates only.  [new Date(d)] copies the time value,
    [<] on two dates compares the time values, and [toISOString] is
    one-to-one on time values, so that comparing two ISO strings with [===]
    is comparing the time values. *)
Definition Date := Z.

Definition date_lt (a b : Date) : bool := (a <? b)%Z.

Definition same_ISOString (a b : Date) : bool := (a =? b)%Z.

(* ================================================================== *)
(** * Exceptions and completions *)
(* ================================================================== *)

Inductive Exception : Type :=
| NotFoundException (message : string)
| BadRequestException (message : string)
| InternalServerErrorException (message : string)
| TypeError (message : string)
| TypeORMError (message : string)
| QueryFailedError (message : string)
| FetchError (message : string)
| SyntaxError (message : string)
| RangeError (message : string).

(** [error instanceof NotFoundException] *)
Definition instanceof_NotFoundException (e : Exception) : bool :=
  match e with NotFoundException _ => true | _ => false end.

(** [error instanceof BadRequestException] *)
Definition instanceof_BadRequestException (e : Exception) : bool :=
  match e with BadRequestException _ => true | _ => false end.

(** The result of running a piece of code: a value, or a thrown
    exception. *)
Inductive Completion (A : Type) : Type :=
| Normal (value : A)
| Throw (error : Exception).

Arguments Normal {A} value.
Arguments Throw {A} error.

Definition bind {A B} (c : Completion A) (k : A -> Completion B)
  : Completion B :=
  match c with
  | Normal a => k a
  | Throw e => Throw e
  end.

(** [try { body } catch (error) { handler }] *)
Definition try_catch {A} (body : Completion A)
  (handler : Exception -> Completion A) : Completion A :=
  match body with
  | Normal a => Normal a
  | Throw e => handler e
  end.

Declare Scope completion_scope.
Delimit Scope completion_scope with completion.
Notation "x <- c ;; k" := (bind c (fun x => k))
  (at level 61, c at next level, right associativity) : completion_scope.
Notation "'try' body 'catch' handler" := (try_catch body handler)
  (at level 62, body at level 61, handler at level 61) : completion_scope.

(* ================================================================== *)
(** * Entities *)
(* ================================================================== *)

(** The scalar columns of [Person] (person.entity.ts). *)
Module Person.
Record t : Type := mk {
  id : Z;
  lastName : string;
  firstName : string;
  email : string;
  phoneNumber : string
}.
End Person.

(** The scalar columns of [Animal] (animal.entity.ts).  [weight] is a
    float column: a finite number. *)
Module Animal.
Record t : Type := mk {
  id : Z;
  name : string;
  dateOfBirth : Date;
  species : string;
  breed : string;
  color : string;
  weight : Q
}.
End Animal.

(** An animal loaded with [relations: ['owner']]: the left join leaves
    [owner] null when the row has none. *)
Record AnimalWithOwner : Type := mkAnimalWithOwner {
  animal :> Animal.t;
  owner : option Person.t
}.

(** A person loaded with [relations: ['animals']]. *)
Record PersonWithAnimals : Type := mkPersonWithAnimals {
  person :> Person.t;
  animals : list Animal.t
}.

(** models/heaviest-animal.model.ts *)
Record HeaviestAnimal : Type := mkHeaviestAnimal {
  ha_animalId : Z;
  ha_name : string;
  ha_species : string;
  ha_weight : Q;
  ha_ownerFullName : string;
  ha_ownerId : Z
}.

(** models/top-owner.model.ts *)
Record TopOwner : Type := mkTopOwner {
  ownerId : Z;
  fullName : string;
  count : Z
}.

(** models/heaviest-group.model.ts *)
Record HeaviestGroup : Type := mkHeaviestGroup {
  hg_ownerId : Z;
  hg_fullName : string;
  totalWeight : Q
}.

Local Open Scope completion_scope.

(* ================================================================== *)
(** * AnimalService: the aggregate queries *)
(* ================================================================== *)

(** Each aggregate query makes one repository call, [find]; its
    completion is the argument [found] of the model: the rows, or the
    error the repository threw. *)

(** [AnimalService.findOldest] (no try/catch in the source). *)
Definition findOldest (found : Completion (list Animal.t))
  : Completion (list Animal.t) :=
  animals <- found ;;
  match animals with
  | [] => Normal []
  | first :: _ =>
      let oldestDate :=
        fold_left
          (fun min animal =>
             if date_lt (Animal.dateOfBirth animal) min
             then Animal.dateOfBirth animal else min)
          animals (Animal.dateOfBirth first) in
      Normal (filter
                (fun animal =>
                   same_ISOString (Animal.dateOfBirth animal) oldestDate)
                animals)
  end.

(** The object literal built for one animal in
    [AnimalService.findHeaviestAnimal]; reading [animal.owner.firstName]
    of a null owner is a TypeError. *)
Definition heaviest_entry (animal : AnimalWithOwner)
  : Completion HeaviestAnimal :=
  match owner animal with
  | None => Throw (TypeError "Cannot read properties of null")
  | Some o =>
      Normal {| ha_animalId := Animal.id animal;
                ha_name := Animal.name animal;
                ha_species := Animal.species animal;
                ha_weight := Animal.weight animal;
                ha_ownerFullName :=
                  Person.firstName o ++ " " ++ Person.lastName o;
                ha_ownerId := Person.id o |}
  end.

(** [array.map(f)] for a callback that can throw. *)
Fixpoint map_throwing {A B} (f : A -> Completion B) (l : list A)
  : Completion (list B) :=
  match l with
  | [] => Normal []
  | x :: rest =>
      y <- f x ;;
      ys <- map_throwing f rest ;;
      Normal (y :: ys)
  end.

(** [AnimalService.findHeaviestAnimal]; [None] is [null]. *)
Definition findHeaviestAnimal (found : Completion (list AnimalWithOwner))
  : Completion (option (list HeaviestAnimal)) :=
  try
    (animals <- found ;;
     match animals with
     | [] => Normal None
     | _ :: _ =>
         let maxWeight :=
           Math_max (map (fun animal : AnimalWithOwner =>
                            Finite (Animal.weight animal)) animals) in
         entries <-
           map_throwing heaviest_entry
             (filter (fun animal : AnimalWithOwner =>
                        strict_eq (Finite (Animal.weight animal)) maxWeight)
                     animals) ;;
         Normal (Some entries)
     end)
  catch
    (fun error =>
       Throw (InternalServerErrorException
                "Erreur lors de la recherche de l'animal le plus lourd")).

(* ================================================================== *)
(** * PersonService: the aggregate queries *)
(* ================================================================== *)

(** [`${person.firstName} ${person.lastName}`] *)
Definition full_name (p : Person.t) : string :=
  Person.firstName p ++ " " ++ Person.lastName p.

(** [PersonService.findTopOwners] *)
Definition findTopOwners (found : Completion (list PersonWithAnimals))
  : Completion (list TopOwner) :=
  try
    (persons <- found ;;
     match persons with
     | [] => Normal []
     | _ :: _ =>
         let ownersWithCount :=
           map (fun person : PersonWithAnimals =>
                  {| ownerId := Person.id person;
                     fullName := full_name person;
                     count := length_of (animals person) |})
               persons in
         let maxCount :=
           Math_max (map (fun owner => of_Z (count owner)) ownersWithCount) in
         Normal (filter (fun owner => strict_eq (of_Z (count owner)) maxCount)
                        ownersWithCount)
     end)
  catch
    (fun error =>
       Throw (InternalServerErrorException
                "Une erreur est survenue lors de la récupération des propriétaires avec le plus d'animaux")).

(** [!species || species.trim() === ''] for a string argument: the empty
    string is the only falsy string. *)
Definition blank (species : string) : bool :=
  orb (String.eqb species "") (String.eqb (trim species) "").

(** [PersonService.findTopOwnersBySpecies].  The repository is called
    after the argument check only; [found] is what the call completes
    with. *)
Definition findTopOwnersBySpecies (species : string)
  (found : Completion (list PersonWithAnimals))
  : Completion (list TopOwner) :=
  try
    (if blank species
     then Throw (BadRequestException
                   "Le champ 'species' ne peut pas être vide.")
     else
       let speciesLower := toLowerCase species in
       persons <- found ;;
       let ownersWithCount :=
         map (fun person : PersonWithAnimals =>
                let count :=
                  length_of
                    (filter (fun a =>
                               String.eqb (toLowerCase (Animal.species a))
                                          speciesLower)
                            (animals person)) in
                {| ownerId := Person.id person;
                   fullName := full_name person;
                   count := count |})
             persons in
       let maxCount :=
         Math_max (map (fun o => of_Z (count o)) ownersWithCount) in
       Normal (filter (fun o =>
                         andb (strict_eq (of_Z (count o)) maxCount)
                              (gt (of_Z (count o)) (of_Z 0)))
                      ownersWithCount))
  catch
    (fun error =>
       if instanceof_BadRequestException error then Throw error
       else
         Throw (InternalServerErrorException
                  "Erreur lors de la recherche des propriétaires pour l'espèce spécifiée")).

(** [PersonService.findHeaviestGroups].  The sum of the weights is the
    exact sum here; the doubles of the source round it. *)
Definition findHeaviestGroups (found : Completion (list PersonWithAnimals))
  : Completion (list HeaviestGroup) :=
  try
    (persons <- found ;;
     let ownersWithTotalWeight :=
       map (fun person : PersonWithAnimals =>
              let totalWeight :=
                fold_left (fun sum animal => (sum + Animal.weight animal)%Q)
                          (animals person) 0%Q in
              {| hg_ownerId := Person.id person;
                 hg_fullName := full_name person;
                 totalWeight := totalWeight |})
           persons in
     let maxWeight :=
       Math_max (map (fun owner => Finite (totalWeight owner))
                     ownersWithTotalWeight) in
     Normal (filter (fun owner =>
                       strict_eq (Finite (totalWeight owner)) maxWeight)
                    ownersWithTotalWeight))
  catch
    (fun error =>
       Throw (InternalServerErrorException
                "Erreur lors de la récupération des groupes d'animaux les plus lourds")).

(* ================================================================== *)
(** * The paged list queries *)
(* ================================================================== *)

(** An optional (nullable) GraphQL argument as the resolver receives it:
    [undefined] when the caller omits it, [null] when the caller passes
    null. *)
Inductive arg (A : Type) : Type :=
| Undefined
| Null
| Value (v : A).

Arguments Undefined {A}.
Arguments Null {A}.
Arguments Value {A} v.

(** [Number(x)] for an optional integer. *)
Definition Number (x : arg Z) : number :=
  match x with
  | Undefined => NaN
  | Null => of_Z 0
  | Value z => of_Z z
  end.

(** [x ?? d] *)
Definition nullish {A} (x : arg A) (d : A) : A :=
  match x with
  | Undefined | Null => d
  | Value v => v
  end.

(** [if (species)]: an absent, null or empty string is falsy. *)
Definition truthy_string (x : arg string) : option string :=
  match x with
  | Value s => if String.eqb s "" then None else Some s
  | _ => None
  end.

(** ** The query builder

    TypeORM's [SelectQueryBuilder] and the database behind it are outside
    the repository.  The model is the contract the services rely on (and
    the source spells out in its "VERSION JS CLASSIQUE" comment): [where]
    filters, [skip] and [take] cut the page out of the filtered rows, and
    [getManyAndCount] returns the page with the number of filtered rows.
    [skip] and [take] throw when they are handed [NaN].  The query
    builder tests [skip] and [take] for truthiness: 0 is like no value,
    so that a query with neither is not paged at all, and one with a
    [skip] and no [take] is an OFFSET without LIMIT, which the MySQL
    driver refuses. *)
Record SelectQueryBuilder (A : Type) : Type := mkQuery {
  where_clause : option (A -> bool);
  skip_value : option number;
  take_value : option number
}.

Definition createQueryBuilder {A} : SelectQueryBuilder A :=
  {| where_clause := None; skip_value := None; take_value := None |}.

(** [query.where('LOWER(animal.species) = :species', { species })].  The
    comparison is the database's, under the collation of the column; the
    model is that of a binary collation on ASCII text: LOWER is the case
    mapping [toLowerCase] and [=] compares the bytes. *)
Definition where_lower_species (parameter : string)
  (q : SelectQueryBuilder AnimalWithOwner)
  : SelectQueryBuilder AnimalWithOwner :=
  {| where_clause :=
       Some (fun row : AnimalWithOwner =>
               String.eqb (toLowerCase (Animal.species row)) parameter);
     skip_value := skip_value q;
     take_value := take_value q |}.

Definition skip {A} (n : number) (q : SelectQueryBuilder A)
  : Completion (SelectQueryBuilder A) :=
  match n with
  | NaN =>
      Throw (TypeORMError
               "Provided skip value is not a number. Please provide a numeric value.")
  | _ => Normal {| where_clause := where_clause q;
                   skip_value := Some n;
                   take_value := take_value q |}
  end.

Definition take {A} (n : number) (q : SelectQueryBuilder A)
  : Completion (SelectQueryBuilder A) :=
  match n with
  | NaN =>
      Throw (TypeORMError
               "Provided take value is not a number. Please provide a numeric value.")
  | _ => Normal {| where_clause := where_clause q;
                   skip_value := skip_value q;
                   take_value := Some n |}
  end.

(** A number that the database accepts as OFFSET or LIMIT: a
    non-negative integer. *)
Definition row_count (n : number) : option nat :=
  match n with
  | Finite q =>
      if andb (Z.leb 0 (Qnum q)) (Pos.eqb (Qden q) 1)
      then Some (Z.to_nat (Qnum q)) else None
  | _ => None
  end.

(** [skip] or [take] holds a truthy number: one that is not 0. *)
Definition is_set (n : option number) : bool :=
  match n with
  | Some (Finite q) => negb (Qeq_bool q 0)
  | Some NegInfinity => true
  | Some NaN | None => false
  end.

(** The rows of the page.  With a [take], [skip] rows are dropped and at
    most [take] rows kept; with neither [skip] nor [take] the query is not
    paged; with a [skip] alone the driver throws. *)
Definition page_of {A} (q : SelectQueryBuilder A) (rows : list A)
  : Completion (list A) :=
  match is_set (skip_value q), is_set (take_value q) with
  | false, false => Normal rows
  | true, false =>
      Throw (TypeORMError
               "RDBMS does not support OFFSET without LIMIT in SELECT statements")
  | false, true =>
      match option_map row_count (take_value q) with
      | Some (Some t) => Normal (firstn t rows)
      | _ => Throw (QueryFailedError "You have an error in your SQL syntax")
      end
  | true, true =>
      match option_map row_count (skip_value q),
            option_map row_count (take_value q) with
      | Some (Some s), Some (Some t) => Normal (firstn t (skipn s rows))
      | _, _ => Throw (QueryFailedError "You have an error in your SQL syntax")
      end
  end.

(** [query.getManyAndCount()] over the rows of the table; [table] is
    what reading the table completes with. *)
Definition getManyAndCount {A} (table : Completion (list A))
  (q : SelectQueryBuilder A) : Completion (list A * Z) :=
  rows <- table ;;
  let matching :=
    match where_clause q with
    | None => rows
    | Some condition => filter condition rows
    end in
  page <- page_of q matching ;;
  Normal (page, length_of matching).

(** [AnimalService.findAll] *)
Definition AnimalService_findAll (start limit : arg Z) (species : arg string)
  (table : Completion (list AnimalWithOwner))
  : Completion (list AnimalWithOwner * Z) :=
  try
    (let query := createQueryBuilder in
     let query :=
       match truthy_string species with
       | Some species => where_lower_species (toLowerCase species) query
       | None => query
       end in
     query <- skip (Number start) query ;;
     query <- take (Number limit) query ;;
     getManyAndCount table query)
  catch
    (fun error =>
       Throw (InternalServerErrorException
                "Erreur lors de la récupération paginée des animaux")).

(** [AnimalResolver.findAllAnimals] *)
Definition findAllAnimals (start limit : arg Z) (species : arg string)
  (table : Completion (list AnimalWithOwner))
  : Completion (list AnimalWithOwner * Z) :=
  AnimalService_findAll start limit species table.

(** [PersonService.findAll]; its two arguments are numbers. *)
Definition PersonService_findAll (start limit : Z)
  (table : Completion (list PersonWithAnimals))
  : Completion (list PersonWithAnimals * Z) :=
  try
    (query <- skip (Number (Value start)) createQueryBuilder ;;
     query <- take (Number (Value limit)) query ;;
     getManyAndCount table query)
  catch
    (fun error =>
       Throw (InternalServerErrorException
                "Erreur lors de la récupération paginée des personnes")).

(** [PersonResolver.paginatedPersons] *)
Definition paginatedPersons (start limit : arg Z)
  (table : Completion (list PersonWithAnimals))
  : Completion (list PersonWithAnimals * Z) :=
  PersonService_findAll (nullish start 0%Z) (nullish limit 12%Z) table.

(* ================================================================== *)
(** * TranslationHelper *)
(* ================================================================== *)

(** ** [encodeURIComponent]

    The unreserved ASCII characters are kept and every other byte of the
    UTF-8 form is written [%XX]. *)
Definition is_unreserved (c : ascii) : bool :=
  let n := nat_of_ascii c in
  orb (andb (Nat.leb 65 n) (Nat.leb n 90))            (* A-Z *)
  (orb (andb (Nat.leb 97 n) (Nat.leb n 122))          (* a-z *)
  (orb (andb (Nat.leb 48 n) (Nat.leb n 57))           (* 0-9 *)
       (existsb (Nat.eqb n)
          [45; 95; 46; 33; 126; 42; 39; 40; 41]))).   (* - _ . ! ~ * ' ( ) *)

Definition hex_digit (n : nat) : ascii :=
  if Nat.ltb n 10 then ascii_of_nat (48 + n) else ascii_of_nat (55 + n).

Definition percent_encode (c : ascii) : string :=
  let n := nat_of_ascii c in
  String "%" (String (hex_digit (n / 16)) (String (hex_digit (n mod 16)) "")).

Fixpoint encodeURIComponent (s : string) : string :=
  match s with
  | EmptyString => EmptyString
  | String c rest =>
      if is_unreserved c then String c (encodeURIComponent rest)
      else percent_encode c ++ encodeURIComponent rest
  end.

(** ** The translation service *)

(** The body of the answer of the MyMemory service, as the helper reads
    it: [data?.responseData?.translatedText]. *)
Record ResponseData : Type := mkResponseData {
  translatedText : option string
}.

Record TranslationApiResponse : Type := mkTranslationApiResponse {
  responseData : option ResponseData
}.

(** A response; [json] is what [response.json()] completes with ([None]
    is the JSON value null). *)
Record Response : Type := mkResponse {
  json : Completion (option TranslationApiResponse)
}.

(** [data?.responseData?.translatedText || text] *)
Definition translatedText_or (data : option TranslationApiResponse)
  (text : string) : string :=
  match data with
  | None => text
  | Some d =>
      match responseData d with
      | None => text
      | Some r =>
          match translatedText r with
          | None => text
          | Some t => if String.eqb t "" then text else t
          end
      end
  end.

(** The [url] of the request. *)
Definition request_url (text toLang fromLang : string) : string :=
  "https://api.mymemory.translated.net/get?q="
  ++ encodeURIComponent text ++ "&langpair=" ++ fromLang ++ "|" ++ toLang.

Section Translation.

(** [fetch(url)]: the network call, a rejected promise being a [Throw]. *)
Variable fetch : string -> Completion Response.

(** [TranslationHelper.translate(text, toLang = 'fr', fromLang = 'en')] *)
Definition translate_between (text toLang fromLang : string)
  : Completion string :=
  if String.eqb text "" then Normal text
  else
    let url := request_url text toLang fromLang in
    try
      (response <- fetch url ;;
       data <- json response ;;
       Normal (translatedText_or data text))
    catch
      (fun error => Normal text).

(** The call with the default languages, as the services make it. *)
Definition translate (text : string) : Completion string :=
  translate_between text "fr" "en".

End Translation.

(* ================================================================== *)
(** * The species count: a plain object used as a map *)
(* ================================================================== *)

(** What reading a property of [speciesCount] can yield, and what the
    method then stores back: a number, a string, or, read through the
    prototype chain of [{}], a built-in method of [Object.prototype] or
    [Object.prototype] itself. *)
Inductive value : Type :=
| VUndefined
| VNumber (n : number)
| VString (s : string)
| VFunction (name : string)
| VObjectPrototype.

(** The own properties of the object, in creation order. *)
Definition object : Type := list (string * value).

(** The methods every plain object inherits from [Object.prototype]. *)
Definition Object_prototype_methods : list string :=
  [ "constructor"; "__defineGetter__"; "__defineSetter__"; "hasOwnProperty";
    "__lookupGetter__"; "__lookupSetter__"; "isPrototypeOf";
    "propertyIsEnumerable"; "toString"; "valueOf"; "toLocaleString" ].

Definition own_property (o : object) (key : string) : option value :=
  option_map snd (find (fun kv => String.eqb (fst kv) key) o).

(** [o[key]]: the own property, else what the prototype chain holds:
    [__proto__] is an accessor that returns the prototype, [constructor]
    is the function [Object], and the other methods bear the name of
    their key. *)
Definition get (o : object) (key : string) : value :=
  match own_property o key with
  | Some v => v
  | None =>
      if String.eqb key "__proto__" then VObjectPrototype
      else if existsb (String.eqb key) Object_prototype_methods
           then VFunction (if String.eqb key "constructor" then "Object"
                           else key)
           else VUndefined
  end.

Fixpoint put (o : object) (key : string) (v : value) : object :=
  match o with
  | [] => [(key, v)]
  | (k, w) :: rest =>
      if String.eqb k key then (k, v) :: rest else (k, w) :: put rest key v
  end.

(** [o[key] = v] for [v] a number or a string: the inherited setter of
    [__proto__] ignores such a value and creates no property; any other
    key is updated in place or created last. *)
Definition set (o : object) (key : string) (v : value) : object :=
  if String.eqb key "__proto__" then o else put o key v.

(** [v || 0] *)
Definition or_zero (v : value) : value :=
  match v with
  | VUndefined => VNumber (of_Z 0)
  | VNumber NaN => VNumber (of_Z 0)
  | VNumber (Finite q) => if Qeq_bool q 0 then VNumber (of_Z 0) else v
  | VString s => if String.eqb s "" then VNumber (of_Z 0) else v
  | _ => v
  end.

(** [v + 1]: an addition of numbers, or, when [v] is not a number, the
    concatenation of its string form and "1". *)
Definition plus_one (v : value) : value :=
  match v with
  | VUndefined => VNumber NaN
  | VNumber n => VNumber (add n (of_Z 1))
  | VString s => VString (s ++ "1")
  | VFunction name =>
      VString ("function " ++ name ++ "() { [native code] }" ++ "1")
  | VObjectPrototype => VString "[object Object]1"
  end.

(** ** [Object.entries]

    The keys that are array indices come first, in ascending order; the
    other keys follow in creation order. *)
Definition is_digit (c : ascii) : bool :=
  let n := nat_of_ascii c in andb (Nat.leb 48 n) (Nat.leb n 57).

Fixpoint digits_value (s : string) (acc : N) : option N :=
  match s with
  | EmptyString => Some acc
  | String c rest =>
      if is_digit c
      then digits_value rest (acc * 10 + N.of_nat (nat_of_ascii c - 48))%N
      else None
  end.

(** The index a key denotes, when it is the canonical decimal form of an
    integer from 0 to 2^32 - 2. *)
Definition array_index (key : string) : option N :=
  match key with
  | EmptyString => None
  | String c rest =>
      if andb (Ascii.eqb c "0") (negb (String.eqb rest "")) then None
      else
        match digits_value key 0%N with
        | Some n => if (n <=? 4294967294)%N then Some n else None
        | None => None
        end
  end.

Definition is_array_index (key : string) : bool :=
  match array_index key with Some _ => true | None => false end.

Definition index_of (key : string) : N :=
  match array_index key with Some n => n | None => 0%N end.

Fixpoint insert_by_index (e : string * value) (l : list (string * value))
  : list (string * value) :=
  match l with
  | [] => [e]
  | x :: rest =>
      if (index_of (fst e) <=? index_of (fst x))%N then e :: l
      else x :: insert_by_index e rest
  end.

Definition Object_entries (o : object) : list (string * value) :=
  fold_right insert_by_index [] (filter (fun kv => is_array_index (fst kv)) o)
  ++ filter (fun kv => negb (is_array_index (fst kv))) o.

(** ** [sort((a, b) => b[1] - a[1])] *)

(** The number a count converts to in a subtraction.  The strings that
    [plus_one] makes are not numeric: they convert to [NaN]. *)
Definition ToNumber (v : value) : number :=
  match v with
  | VNumber n => n
  | _ => NaN
  end.

(** [b[1] - a[1] > 0]: the comparator asks for [a] after [b]. *)
Definition comparator_positive (a b : string * value) : bool :=
  gt (ToNumber (snd b)) (ToNumber (snd a)).

Fixpoint insert_sorted (a : string * value) (l : list (string * value))
  : list (string * value) :=
  match l with
  | [] => [a]
  | b :: rest =>
      if comparator_positive a b then b :: insert_sorted a rest
      else a :: l
  end.

(** A stable sort, as [Array.prototype.sort] is: where the comparator
    yields 0 the two elements keep their order.  The comparator yields
    [NaN] only for a count that is not a number (that of a key inherited
    from [Object.prototype]); the order in which an engine leaves such
    entries is its own, and the order here is that of this insertion. *)
Definition sort (l : list (string * value)) : list (string * value) :=
  fold_right insert_sorted [] l.

(** [count === topCount] *)
Definition strict_equal (a b : value) : bool :=
  match a, b with
  | VNumber x, VNumber y => strict_eq x y
  | VString x, VString y => String.eqb x y
  | VUndefined, VUndefined => true
  | VFunction x, VFunction y => String.eqb x y
  | VObjectPrototype, VObjectPrototype => true
  | _, _ => false
  end.

(** What [findMostCommonSpecies] returns for a species (the model class of
    models/most-common-species.model.ts and the translated field the
    service adds). *)
Record MostCommonSpecies : Type := mkMostCommonSpecies {
  mc_species : string;
  mc_count : value;
  mc_specieTranslated : string
}.

Section FindMostCommonSpecies.

Variable fetch : string -> Completion Response.

(** [AnimalService.findMostCommonSpecies] *)
Definition findMostCommonSpecies (found : Completion (list Animal.t))
  : Completion (option (list MostCommonSpecies)) :=
  try
    (animals <- found ;;
     match animals with
     | [] => Normal None
     | _ :: _ =>
         let speciesCount :=
           fold_left
             (fun (speciesCount : object) animal =>
                set speciesCount (Animal.species animal)
                    (plus_one
                       (or_zero (get speciesCount (Animal.species animal)))))
             animals [] in
         let sorted := sort (Object_entries speciesCount) in
         topCount <-
           match sorted with
           | [] =>
               Throw (TypeError
                        "Cannot read properties of undefined (reading '1')")
           | first :: _ => Normal (snd first)
           end ;;
         let mostCommonSpecies :=
           filter (fun entry => strict_equal (snd entry) topCount) sorted in
         result <-
           map_throwing
             (fun entry : string * value =>
                specieTranslated <- translate fetch (fst entry) ;;
                Normal {| mc_species := fst entry;
                          mc_count := snd entry;
                          mc_specieTranslated := specieTranslated |})
             mostCommonSpecies ;;
         Normal (Some result)
     end)
  catch
    (fun error =>
       Throw (InternalServerErrorException
                "Erreur lors de la recherche de l'espèce la plus représentée")).

End FindMostCommonSpecies.

(* ================================================================== *)
(** * The record store *)
(* ================================================================== *)

(** A row of the animal table: the columns and the owner's id (the join
    column of the many-to-one relation). *)
Record AnimalRow : Type := mkAnimalRow {
  columns : Animal.t;
  owner_id : option Z
}.

(** The database: the two tables, the next generated animal id, and, to
    account for unexpected failures, the error that every call to it
    throws while it is out of order. *)
Record Database : Type := mkDatabase {
  person_table : list Person.t;
  animal_table : list AnimalRow;
  next_animal_id : Z;
  out_of_order : option Exception
}.

(** An asynchronous method: it runs against the database and completes
    with a value or a thrown exception. *)
Definition Async (A : Type) : Type := Database -> Completion A * Database.

Definition ret {A} (a : A) : Async A := fun db => (Normal a, db).

Definition throw {A} (e : Exception) : Async A := fun db => (Throw e, db).

Definition bind_async {A B} (m : Async A) (k : A -> Async B) : Async B :=
  fun db =>
    match m db with
    | (Normal a, db') => k a db'
    | (Throw e, db') => (Throw e, db')
    end.

Definition try_catch_async {A} (body : Async A)
  (handler : Exception -> Async A) : Async A :=
  fun db =>
    match body db with
    | (Normal a, db') => (Normal a, db')
    | (Throw e, db') => handler e db'
    end.

(** A call that does not touch the database. *)
Definition lift {A} (c : Completion A) : Async A := fun db => (c, db).

Declare Scope async_scope.
Delimit Scope async_scope with async.
Notation "x <- c ;; k" := (bind_async c (fun x => k))
  (at level 61, c at next level, right associativity) : async_scope.
Notation "'try' body 'catch' handler" := (try_catch_async body handler)
  (at level 62, body at level 61, handler at level 61) : async_scope.

(** A repository call: it throws while the database is out of order. *)
Definition query {A} (run : Database -> A * Database) : Async A :=
  fun db =>
    match out_of_order db with
    | Some e => (Throw e, db)
    | None => let (a, db') := run db in (Normal a, db')
    end.

Definition find_person (id : Z) (db : Database) : option Person.t :=
  find (fun p => Z.eqb (Person.id p) id) (person_table db).

Definition find_animal_row (id : Z) (db : Database) : option AnimalRow :=
  find (fun r => Z.eqb (Animal.id (columns r)) id) (animal_table db).

(** The entity of a row loaded with [relations: ['owner']]. *)
Definition with_owner (db : Database) (r : AnimalRow) : AnimalWithOwner :=
  {| animal := columns r;
     owner := match owner_id r with
              | Some oid => find_person oid db
              | None => None
              end |}.

(** [personRepository.findOneBy({ id })] *)
Definition personRepository_findOneBy (id : Z) : Async (option Person.t) :=
  query (fun db => (find_person id db, db)).

(** [animalRepository.findOneBy({ id })] *)
Definition animalRepository_findOneBy (id : Z) : Async (option Animal.t) :=
  query (fun db => (option_map columns (find_animal_row id db), db)).

(** [animalRepository.findOne({ where: { id }, relations: ['owner'] })] *)
Definition animalRepository_findOne_owner (id : Z)
  : Async (option AnimalWithOwner) :=
  query (fun db => (option_map (with_owner db) (find_animal_row id db), db)).

(** [animalRepository.save(animal)] for a loaded entity: its row is
    rewritten, the join column taking the id of [animal.owner]. *)
Definition animalRepository_save (animal : AnimalWithOwner)
  : Async AnimalWithOwner :=
  query (fun db =>
    (animal,
     {| person_table := person_table db;
        animal_table :=
          map (fun r =>
                 if Z.eqb (Animal.id (columns r)) (Animal.id animal)
                 then {| columns := animal;
                         owner_id := option_map Person.id (owner animal) |}
                 else r)
              (animal_table db);
        next_animal_id := next_animal_id db;
        out_of_order := out_of_order db |})).

(** [personRepository.save(person)] for a loaded entity. *)
Definition personRepository_save (person : Person.t) : Async Person.t :=
  query (fun db =>
    (person,
     {| person_table :=
          map (fun p =>
                 if Z.eqb (Person.id p) (Person.id person) then person else p)
              (person_table db);
        animal_table := animal_table db;
        next_animal_id := next_animal_id db;
        out_of_order := out_of_order db |})).

(** [animalRepository.delete(id)]: the number of rows deleted. *)
Definition animalRepository_delete (id : Z) : Async Z :=
  query (fun db =>
    let kept :=
      filter (fun r => negb (Z.eqb (Animal.id (columns r)) id))
             (animal_table db) in
    (length_of (animal_table db) - length_of kept,
     {| person_table := person_table db;
        animal_table := kept;
        next_animal_id := next_animal_id db;
        out_of_order := out_of_order db |}))%Z.

(* ================================================================== *)
(** * The CRUD methods *)
(* ================================================================== *)

Local Open Scope async_scope.

(** dto/create-animal.input.ts *)
Record CreateAnimalInput : Type := mkCreateAnimalInput {
  ca_name : string;
  ca_dateOfBirth : Date;
  ca_species : string;
  ca_breed : string;
  ca_color : string;
  ca_weight : Q;
  ca_ownerId : Z
}.

(** dto/update-animal.input.ts: a field of the input object is present
    ([Some]) or absent. *)
Record UpdateAnimalInput : Type := mkUpdateAnimalInput {
  ua_name : option string;
  ua_dateOfBirth : option Date;
  ua_species : option string;
  ua_breed : option string;
  ua_color : option string;
  ua_weight : option Q;
  ua_ownerId : option Z
}.

(** dto/update-person.input.ts *)
Record UpdatePersonInput : Type := mkUpdatePersonInput {
  up_lastName : option string;
  up_firstName : option string;
  up_email : option string;
  up_phoneNumber : option string
}.

(** The [TranslatedAnimal] of animal.service.ts: the animal with three
    more fields. *)
Record TranslatedAnimal : Type := mkTranslatedAnimal {
  translated :> AnimalWithOwner;
  breedTranslated : string;
  colorTranslated : string;
  specieTranslated : string
}.

(** [x] when the field is present, the old value otherwise. *)
Definition assigned {A} (field : option A) (old : A) : A :=
  match field with
  | Some x => x
  | None => old
  end.

(** [Object.assign(animal, data)] on the columns; the [ownerId] property
    it also copies is not a column of the entity. *)
Definition assign_animal (a : AnimalWithOwner) (data : UpdateAnimalInput)
  : AnimalWithOwner :=
  {| animal :=
       {| Animal.id := Animal.id a;
          Animal.name := assigned (ua_name data) (Animal.name a);
          Animal.dateOfBirth :=
            assigned (ua_dateOfBirth data) (Animal.dateOfBirth a);
          Animal.species := assigned (ua_species data) (Animal.species a);
          Animal.breed := assigned (ua_breed data) (Animal.breed a);
          Animal.color := assigned (ua_color data) (Animal.color a);
          Animal.weight := assigned (ua_weight data) (Animal.weight a) |};
     owner := owner a |}.

(** [Object.assign(person, data)] *)
Definition assign_person (p : Person.t) (data : UpdatePersonInput)
  : Person.t :=
  {| Person.id := Person.id p;
     Person.lastName := assigned (up_lastName data) (Person.lastName p);
     Person.firstName := assigned (up_firstName data) (Person.firstName p);
     Person.email := assigned (up_email data) (Person.email p);
     Person.phoneNumber :=
       assigned (up_phoneNumber data) (Person.phoneNumber p) |}.

(** [animalRepository.save(animalRepository.create({ ...data, owner }))]:
    the new entity has no id, the row is inserted under the next
    generated id. *)
Definition animalRepository_save_created (data : CreateAnimalInput)
  (o : Person.t) : Async AnimalWithOwner :=
  query (fun db =>
    let created :=
      {| Animal.id := next_animal_id db;
         Animal.name := ca_name data;
         Animal.dateOfBirth := ca_dateOfBirth data;
         Animal.species := ca_species data;
         Animal.breed := ca_breed data;
         Animal.color := ca_color data;
         Animal.weight := ca_weight data |} in
    ({| animal := created; owner := Some o |},
     {| person_table := person_table db;
        animal_table :=
          animal_table db
          ++ [{| columns := created; owner_id := Some (Person.id o) |}];
        next_animal_id := (next_animal_id db + 1)%Z;
        out_of_order := out_of_order db |})).

(** ** AnimalService *)

(** [AnimalService.findOne] *)
Definition AnimalService_findOne (id : Z) : Async Animal.t :=
  try
    (animal <- animalRepository_findOneBy id ;;
     match animal with
     | None =>
         throw (NotFoundException
                  ("Personne avec l'id " ++ toString id ++ " non trouvée"))
     | Some animal => ret animal
     end)
  catch
    (fun error =>
       if instanceof_NotFoundException error then throw error
       else throw (InternalServerErrorException
                     "Erreur lors de la récupération de la personne")).

Section FindOneWithOwner.

Variable fetch : string -> Completion Response.

(** [AnimalService.findOneWithOwner] *)
Definition findOneWithOwner (id : Z) : Async TranslatedAnimal :=
  try
    (animal <- animalRepository_findOne_owner id ;;
     match animal with
     | None =>
         throw (NotFoundException
                  ("Animal avec l'id " ++ toString id ++ " non trouvé"))
     | Some animal =>
         breedTranslated <- lift (translate fetch (Animal.breed animal)) ;;
         colorTranslated <-
           lift (translate fetch (toLowerCase (Animal.color animal))) ;;
         specieTranslated <- lift (translate fetch (Animal.species animal)) ;;
         ret {| translated := animal;
                breedTranslated := breedTranslated;
                colorTranslated := colorTranslated;
                specieTranslated := specieTranslated |}
     end)
  catch
    (fun error =>
       if instanceof_NotFoundException error then throw error
       else throw (InternalServerErrorException
                     "Erreur lors de la récupération de l’animal avec son propriétaire")).

End FindOneWithOwner.

(** [AnimalService.create] *)
Definition AnimalService_create (data : CreateAnimalInput)
  : Async AnimalWithOwner :=
  try
    (owner <- personRepository_findOneBy (ca_ownerId data) ;;
     match owner with
     | None =>
         throw (NotFoundException
                  ("Propriétaire avec l'id " ++ toString (ca_ownerId data)
                   ++ " non trouvé"))
     | Some owner => animalRepository_save_created data owner
     end)
  catch
    (fun error =>
       if instanceof_NotFoundException error then throw error
       else throw (InternalServerErrorException
                     "Erreur lors de la création de l’animal")).

(** [if (data.ownerId)]: an absent id and the id 0 are falsy. *)
Definition truthy_id (field : option Z) : option Z :=
  match field with
  | Some z => if Z.eqb z 0 then None else Some z
  | None => None
  end.

(** [AnimalService.update] *)
Definition AnimalService_update (id : Z) (data : UpdateAnimalInput)
  : Async AnimalWithOwner :=
  try
    (animal <- animalRepository_findOne_owner id ;;
     match animal with
     | None =>
         throw (NotFoundException
                  ("Animal avec l'id " ++ toString id ++ " non trouvé"))
     | Some animal =>
         animal <-
           match truthy_id (ua_ownerId data) with
           | Some ownerId =>
               owner <- personRepository_findOneBy ownerId ;;
               match owner with
               | None =>
                   throw (NotFoundException
                            ("Propriétaire avec l'id " ++ toString ownerId
                             ++ " non trouvé"))
               | Some owner =>
                   ret {| animal := animal; owner := Some owner |}
               end
           | None => ret animal
           end ;;
         animalRepository_save (assign_animal animal data)
     end)
  catch
    (fun error =>
       if instanceof_NotFoundException error then throw error
       else throw (InternalServerErrorException
                     "Erreur lors de la mise à jour de l’animal")).

(** [AnimalService.remove] *)
Definition AnimalService_remove (id : Z) : Async bool :=
  try
    (animal <- animalRepository_findOneBy id ;;
     match animal with
     | None =>
         throw (NotFoundException
                  ("Animal avec l'id " ++ toString id ++ " non trouvé"))
     | Some _ =>
         affected <- animalRepository_delete id ;;
         ret (Z.ltb 0 affected)
     end)
  catch
    (fun error =>
       if instanceof_NotFoundException error then throw error
       else throw (InternalServerErrorException
                     "Erreur lors de la suppression de l’animal")).

(** ** PersonService *)

(** [PersonService.findOne] *)
Definition PersonService_findOne (id : Z) : Async Person.t :=
  try
    (person <- personRepository_findOneBy id ;;
     match person with
     | None =>
         throw (NotFoundException
                  ("Personne avec l'id " ++ toString id ++ " non trouvée"))
     | Some person => ret person
     end)
  catch
    (fun error =>
       if instanceof_NotFoundException error then throw error
       else throw (InternalServerErrorException
                     "Erreur lors de la récupération de la personne")).

(** [PersonService.update]: the catch block rethrows nothing. *)
Definition PersonService_update (id : Z) (data : UpdatePersonInput)
  : Async Person.t :=
  try
    (person <- personRepository_findOneBy id ;;
     match person with
     | None =>
         throw (NotFoundException
                  ("Person with id " ++ toString id ++ " not found"))
     | Some person => personRepository_save (assign_person person data)
     end)
  catch
    (fun error =>
       throw (InternalServerErrorException
                "Une erreur est survenue lors de la mise à jour")).

Local Close Scope async_scope.

(* ================================================================== *)
(** * PersonService: the other methods *)
(* ================================================================== *)

Local Open Scope async_scope.

(** The row belongs to the person [id]. *)
Definition owned_by (id : Z) (r : AnimalRow) : bool :=
  match owner_id r with
  | Some o => Z.eqb o id
  | None => false
  end.

(** The animals a person is loaded with under [relations: ['animals']]. *)
Definition animals_of (db : Database) (id : Z) : list Animal.t :=
  map columns (filter (owned_by id) (animal_table db)).

(** [personRepository.findOne({ where: { id }, relations: ['animals'] })] *)
Definition personRepository_findOne_animals (id : Z)
  : Async (option PersonWithAnimals) :=
  query (fun db =>
    (option_map (fun p => {| person := p;
                             animals := animals_of db (Person.id p) |})
                (find_person id db),
     db)).

(** [personRepository.delete(id)]: the number of rows deleted.  The
    many-to-one relation of animal.entity.ts (no [onDelete] option) puts
    a foreign key on the join column: the database refuses to delete a
    person that an animal refers to. *)
Definition personRepository_delete (id : Z) : Async Z :=
  fun db =>
    match out_of_order db with
    | Some e => (Throw e, db)
    | None =>
        match find_person id db with
        | Some _ =>
            if existsb (owned_by id) (animal_table db)
            then (Throw (QueryFailedError
                           "Cannot delete or update a parent row: a foreign key constraint fails"),
                  db)
            else
              let kept :=
                filter (fun p => negb (Z.eqb (Person.id p) id))
                       (person_table db) in
              (Normal (length_of (person_table db) - length_of kept)%Z,
               {| person_table := kept;
                  animal_table := animal_table db;
                  next_animal_id := next_animal_id db;
                  out_of_order := out_of_order db |})
        | None => (Normal 0%Z, db)
        end
    end.

(** [animalRepository.delete({ owner: { id } })] *)
Definition animalRepository_delete_owner (id : Z) : Async Z :=
  query (fun db =>
    let kept := filter (fun r => negb (owned_by id r)) (animal_table db) in
    ((length_of (animal_table db) - length_of kept)%Z,
     {| person_table := person_table db;
        animal_table := kept;
        next_animal_id := next_animal_id db;
        out_of_order := out_of_order db |})).

(** [PersonService.findOneWithAnimals] *)
Definition findOneWithAnimals (id : Z) : Async PersonWithAnimals :=
  try
    (person <- personRepository_findOne_animals id ;;
     match person with
     | None =>
         throw (NotFoundException
                  ("Personne avec l'id " ++ toString id ++ " non trouvée"))
     | Some person => ret person
     end)
  catch
    (fun error =>
       if instanceof_NotFoundException error then throw error
       else throw (InternalServerErrorException
                     "Erreur lors de la récupération des données de la personne")).

(** [PersonService.remove] *)
Definition PersonService_remove (id : Z) : Async bool :=
  try
    (person <- personRepository_findOneBy id ;;
     match person with
     | None =>
         throw (NotFoundException
                  ("Personne avec l'id " ++ toString id ++ " non trouvée"))
     | Some _ =>
         affected <- personRepository_delete id ;;
         ret (Z.ltb 0 affected)
     end)
  catch
    (fun error =>
       if instanceof_NotFoundException error then throw error
       else throw (InternalServerErrorException
                     "Erreur lors de la suppression de la personne")).

(** [PersonService.removeWithAnimals] *)
Definition removeWithAnimals (id : Z) : Async bool :=
  try
    (person <- personRepository_findOneBy id ;;
     match person with
     | None =>
         throw (NotFoundException
                  ("Personne avec l'id " ++ toString id ++ " non trouvée"))
     | Some _ =>
         _ <- animalRepository_delete_owner id ;;
         affected <- personRepository_delete id ;;
         ret (Z.ltb 0 affected)
     end)
  catch
    (fun error =>
       if instanceof_NotFoundException error then throw error
       else throw (InternalServerErrorException
                     "Erreur lors de la suppression de la personne et de ses animaux")).

Local Close Scope async_scope.

(* ================================================================== *)
(** * The argument limit of a call *)
(* ================================================================== *)

(** [Math.max(...array)] is a call with one argument for each element of
    the array.  An engine accepts as many arguments as its stack has room
    for (about 125000 under Node.js with its default stack) and throws a
    RangeError for more.  The aggregate queries as they are defined above
    take the maximum of any number of rows: they are the queries as an
    engine without that limit runs them.  In [Engine] the limit is the
    parameter [max_arguments] and the spread call throws beyond it; the
    catch block of each query turns the RangeError into the internal
    error.  [AnimalService.findOldest] uses [reduce] and no spread call:
    it has no such limit. *)
Module Engine.

Section MaxArguments.

Variable max_arguments : nat.

(** [Math.max(...xs)] *)
Definition Math_max_spread (xs : list number) : Completion number :=
  if Nat.leb (List.length xs) max_arguments
  then Normal (Math_max xs)
  else Throw (RangeError "Maximum call stack size exceeded").

(** [AnimalService.findHeaviestAnimal]; [None] is [null]. *)
Definition findHeaviestAnimal (found : Completion (list AnimalWithOwner))
  : Completion (option (list HeaviestAnimal)) :=
  try
    (animals <- found ;;
     match animals with
     | [] => Normal None
     | _ :: _ =>
         maxWeight <-
           Math_max_spread (map (fun animal : AnimalWithOwner =>
                                   Finite (Animal.weight animal)) animals) ;;
         entries <-
           map_throwing heaviest_entry
             (filter (fun animal : AnimalWithOwner =>
                        strict_eq (Finite (Animal.weight animal)) maxWeight)
                     animals) ;;
         Normal (Some entries)
     end)
  catch
    (fun error =>
       Throw (InternalServerErrorException
                "Erreur lors de la recherche de l'animal le plus lourd")).

(** [PersonService.findTopOwners] *)
Definition findTopOwners (found : Completion (list PersonWithAnimals))
  : Completion (list TopOwner) :=
  try
    (persons <- found ;;
     match persons with
     | [] => Normal []
     | _ :: _ =>
         let ownersWithCount :=
           map (fun person : PersonWithAnimals =>
                  {| ownerId := Person.id person;
                     fullName := full_name person;
                     count := length_of (animals person) |})
               persons in
         maxCount <-
           Math_max_spread
             (map (fun owner => of_Z (count owner)) ownersWithCount) ;;
         Normal (filter (fun owner => strict_eq (of_Z (count owner)) maxCount)
                        ownersWithCount)
     end)
  catch
    (fun error =>
       Throw (InternalServerErrorException
                "Une erreur est survenue lors de la récupération des propriétaires avec le plus d'animaux")).

(** [PersonService.findTopOwnersBySpecies] *)
Definition findTopOwnersBySpecies (species : string)
  (found : Completion (list PersonWithAnimals))
  : Completion (list TopOwner) :=
  try
    (if blank species
     then Throw (BadRequestException
                   "Le champ 'species' ne peut pas être vide.")
     else
       let speciesLower := toLowerCase species in
       persons <- found ;;
       let ownersWithCount :=
         map (fun person : PersonWithAnimals =>
                let count :=
                  length_of
                    (filter (fun a =>
                               String.eqb (toLowerCase (Animal.species a))
                                          speciesLower)
                            (animals person)) in
                {| ownerId := Person.id person;
                   fullName := full_name person;
                   count := count |})
             persons in
       maxCount <-
         Math_max_spread (map (fun o => of_Z (count o)) ownersWithCount) ;;
       Normal (filter (fun o =>
                         andb (strict_eq (of_Z (count o)) maxCount)
                              (gt (of_Z (count o)) (of_Z 0)))
                      ownersWithCount))
  catch
    (fun error =>
       if instanceof_BadRequestException error then Throw error
       else
         Throw (InternalServerErrorException
                  "Erreur lors de la recherche des propriétaires pour l'espèce spécifiée")).

(** [PersonService.findHeaviestGroups], with the addition of two doubles
    as a parameter: [plus] is whatever [sum + animal.weight] evaluates
    to. *)
Definition findHeaviestGroups (plus : Q -> Q -> Q)
  (found : Completion (list PersonWithAnimals))
  : Completion (list HeaviestGroup) :=
  try
    (persons <- found ;;
     let ownersWithTotalWeight :=
       map (fun person : PersonWithAnimals =>
              let totalWeight :=
                fold_left (fun sum animal => plus sum (Animal.weight animal))
                          (animals person) 0%Q in
              {| hg_ownerId := Person.id person;
                 hg_fullName := full_name person;
                 totalWeight := totalWeight |})
           persons in
     maxWeight <-
       Math_max_spread (map (fun owner => Finite (totalWeight owner))
                            ownersWithTotalWeight) ;;
     Normal (filter (fun owner =>
                       strict_eq (Finite (totalWeight owner)) maxWeight)
                    ownersWithTotalWeight))
  catch
    (fun error =>
       Throw (InternalServerErrorException
                "Erreur lors de la récupération des groupes d'animaux les plus lourds")).

End MaxArguments.

End Engine.

(* ================================================================== *)
(** * Sample records *)
(* ================================================================== *)

Definition alice : Person.t :=
  {| Person.id := 1; Person.lastName := "Martin"; Person.firstName := "Alice";
     Person.email := "alice@example.org"; Person.phoneNumber := "0102030405" |}.

Definition bob : Person.t :=
  {| Person.id := 2; Person.lastName := "Durand"; Person.firstName := "Bob";
     Person.email := "bob@example.org"; Person.phoneNumber := "0605040302" |}.

Definition rex : Animal.t :=
  {| Animal.id := 1; Animal.name := "Rex"; Animal.dateOfBirth := 1262304000000%Z;
     Animal.species := "Dog"; Animal.breed := "Labrador";
     Animal.color := "Black"; Animal.weight := 30.5%Q |}.

Definition felix : Animal.t :=
  {| Animal.id := 2; Animal.name := "Felix";
     Animal.dateOfBirth := 1262304000000%Z;
     Animal.species := "cat"; Animal.breed := "Siamese";
     Animal.color := "White"; Animal.weight := 4%Q |}.

Definition medor : Animal.t :=
  {| Animal.id := 3; Animal.name := "Medor";
     Animal.dateOfBirth := 1420070400000%Z;
     Animal.species := "dog"; Animal.breed := "Beagle";
     Animal.color := "brown"; Animal.weight := 30.5%Q |}.

(** Alice owns Rex and Felix, Bob owns Medor. *)
Definition sample_db : Database :=
  {| person_table := [alice; bob];
     animal_table :=
       [ {| columns := rex; owner_id := Some 1%Z |};
         {| columns := felix; owner_id := Some 1%Z |};
         {| columns := medor; owner_id := Some 2%Z |} ];
     next_animal_id := 4;
     out_of_order := None |}.

Definition sample_animals : list AnimalWithOwner :=
  map (with_owner sample_db) (animal_table sample_db).

Definition sample_persons : list PersonWithAnimals :=
  [ {| person := alice; animals := [rex; felix] |};
    {| person := bob; animals := [medor] |} ].

(** An update that only names a new owner. *)
Definition only_ownerId (ownerId : Z) : UpdateAnimalInput :=
  {| ua_name := None; ua_dateOfBirth := None; ua_species := None;
     ua_breed := None; ua_color := None; ua_weight := None;
     ua_ownerId := Some ownerId |}.

Definition no_change : UpdatePersonInput :=
  {| up_lastName := None; up_firstName := None; up_email := None;
     up_phoneNumber := None |}.

(** A network on which every request fails. *)
Definition unreachable (url : string) : Completion Response :=
  Throw (FetchError "request to https://api.mymemory.translated.net failed").

(* ================================================================== *)
(** * The vocabulary of the properties *)
(* ================================================================== *)

(** What an entry of the result carries for animal [a]. *)
Definition carries (a : AnimalWithOwner) (e : HeaviestAnimal) : Prop :=
  exists o,
    owner a = Some o
    /\ e = {| ha_animalId := Animal.id a;
              ha_name := Animal.name a;
              ha_species := Animal.species a;
              ha_weight := Animal.weight a;
              ha_ownerFullName :=
                Person.firstName o ++ " " ++ Person.lastName o;
              ha_ownerId := Person.id o |}.

Definition has_owner (a : AnimalWithOwner) : bool :=
  match owner a with Some _ => true | None => false end.


(** The string holds ASCII characters only: every byte is below 128. *)
Fixpoint ascii_only (s : string) : bool :=
  match s with
  | EmptyString => true
  | String c rest => andb (Nat.ltb (nat_of_ascii c) 128) (ascii_only rest)
  end.

(** The species of every animal of every owner is ASCII text. *)
Definition ascii_species (persons : list PersonWithAnimals) : bool :=
  forallb (fun p : PersonWithAnimals =>
             forallb (fun a => ascii_only (Animal.species a)) (animals p))
          persons.

(** A capital letter [A]..[Z], by its code. *)
Definition capital (n : nat) : bool := andb (Nat.leb 65 n) (Nat.leb n 90).

(** Two ASCII characters are the same when case is ignored: they are
    equal, or one is a capital letter and the other the small letter for
    it, 32 codes further. *)
Definition same_letter (c d : ascii) : bool :=
  let m := nat_of_ascii c in
  let n := nat_of_ascii d in
  orb (Nat.eqb m n)
      (orb (andb (capital m) (Nat.eqb n (m + 32)))
           (andb (capital n) (Nat.eqb m (n + 32)))).

(** Two ASCII texts are the same when case is ignored. *)
Fixpoint same_ignoring_case (s t : string) : bool :=
  match s, t with
  | EmptyString, EmptyString => true
  | String c s', String d t' =>
      andb (same_letter c d) (same_ignoring_case s' t')
  | _, _ => false
  end.



(** The rows a species filter keeps. *)
Definition matching_species (species : arg string)
  (rows : list AnimalWithOwner) : list AnimalWithOwner :=
  match truthy_string species with
  | Some s =>
      filter (fun row : AnimalWithOwner =>
                String.eqb (toLowerCase (Animal.species row)) (toLowerCase s))
             rows
  | None => rows
  end.

(** The call for [text] fails: the request is rejected, or the body of
    the response is not JSON. *)
Definition call_fails (fetch : string -> Completion Response) (text : string)
  : bool :=
  match fetch (request_url text "fr" "en") with
  | Throw _ => true
  | Normal response =>
      match json response with
      | Throw _ => true
      | Normal _ => false
      end
  end.


(** An animal whose species is the string "__proto__", and one whose
    species is "constructor". *)
Definition proto_pet : Animal.t :=
  {| Animal.id := 7; Animal.name := "Odd"; Animal.dateOfBirth := 0%Z;
     Animal.species := "__proto__"; Animal.breed := "Mix";
     Animal.color := "Grey"; Animal.weight := 2%Q |}.

Definition constructor_pet : Animal.t :=
  {| Animal.id := 8; Animal.name := "Bau"; Animal.dateOfBirth := 0%Z;
     Animal.species := "constructor"; Animal.breed := "Mix";
     Animal.color := "Grey"; Animal.weight := 2%Q |}.

(** A species that names nothing on [Object.prototype]. *)
Definition plain_species (s : string) : bool :=
  andb (negb (String.eqb s "__proto__"))
       (negb (existsb (String.eqb s) Object_prototype_methods)).

(** The number of animals of the list whose species is exactly [s]. *)
Definition occurrences (s : string) (animals : list Animal.t) : nat :=
  List.length (filter (fun a => String.eqb (Animal.species a) s) animals).

(** The object holds, for each species of the animals, the number of its
    occurrences, and nothing else. *)
Definition counts_of (animals : list Animal.t) (o : object) : Prop :=
  NoDup (map fst o)
  /\ forall k v,
       In (k, v) o <->
       (0 < occurrences k animals)%nat
       /\ v = VNumber (of_Z (Z.of_nat (occurrences k animals))).

(** The step of the counting loop. *)
Definition count_one (speciesCount : object) (animal : Animal.t) : object :=
  set speciesCount (Animal.species animal)
      (plus_one (or_zero (get speciesCount (Animal.species animal)))).

(** The finite number a count holds. *)
Definition finite_count (v : value) : Q :=
  match v with
  | VNumber (Finite q) => q
  | _ => 0%Q
  end.

Definition is_finite_count (e : string * value) : Prop :=
  exists q, snd e = VNumber (Finite q).

(** The first element of a list, when it has one, is of maximal count. *)
Definition head_is_max (l : list (string * value)) : Prop :=
  match l with
  | [] => True
  | first :: _ =>
      forall e, In e l -> (finite_count (snd e) <= finite_count (snd first))%Q
  end.

(** The failure kinds a completion can be of. *)
Definition not_found_or_internal {A} (c : Completion A) : Prop :=
  match c with
  | Normal _ => True
  | Throw (NotFoundException _) => True
  | Throw (InternalServerErrorException _) => True
  | Throw _ => False
  end.

Definition internal_only {A} (c : Completion A) : Prop :=
  match c with
  | Normal _ => True
  | Throw (InternalServerErrorException _) => True
  | Throw _ => False
  end.

Definition bad_request_or_internal {A} (c : Completion A) : Prop :=
  match c with
  | Normal _ => True
  | Throw (BadRequestException _) => True
  | Throw (InternalServerErrorException _) => True
  | Throw _ => False
  end.

(** A run that throws has written nothing. *)
Definition unchanged_on_throw {A} (db : Database)
  (run : Completion A * Database) : Prop :=
  match fst run with
  | Throw _ => snd run = db
  | Normal _ => True
  end.

(** The database after [animalRepository.save(a)] of a loaded entity. *)
Definition saved (db : Database) (a : AnimalWithOwner) : Database :=
  {| person_table := person_table db;
     animal_table :=
       map (fun r =>
              if Z.eqb (Animal.id (columns r)) (Animal.id a)
              then {| columns := a;
                      owner_id := option_map Person.id (owner a) |}
              else r)
           (animal_table db);
     next_animal_id := next_animal_id db;
     out_of_order := out_of_order db |}.

(** The animal that [create] makes of its input in [db]. *)
Definition created (db : Database) (data : CreateAnimalInput) : Animal.t :=
  {| Animal.id := next_animal_id db;
     Animal.name := ca_name data;
     Animal.dateOfBirth := ca_dateOfBirth data;
     Animal.species := ca_species data;
     Animal.breed := ca_breed data;
     Animal.color := ca_color data;
     Animal.weight := ca_weight data |}.

(** The database after the insertion of the created animal. *)
Definition inserted (db : Database) (data : CreateAnimalInput) (o : Person.t)
  : Database :=
  {| person_table := person_table db;
     animal_table :=
       (animal_table db
        ++ [{| columns := created db data;
               owner_id := Some (Person.id o) |}])%list;
     next_animal_id := (next_animal_id db + 1)%Z;
     out_of_order := out_of_order db |}.

(** Every animal id is below the next generated id. *)
Definition ids_below_next (db : Database) : Prop :=
  forall r, In r (animal_table db) ->
            (Animal.id (columns r) < next_animal_id db)%Z.

(** The database without the rows of animal [id]. *)
Definition without_animal (db : Database) (id : Z) : Database :=
  {| person_table := person_table db;
     animal_table :=
       filter (fun r => negb (Z.eqb (Animal.id (columns r)) id))
              (animal_table db);
     next_animal_id := next_animal_id db;
     out_of_order := out_of_order db |}.

(** The database without the rows of the animals of person [id]. *)
Definition without_animals_of (db : Database) (id : Z) : Database :=
  {| person_table := person_table db;
     animal_table := filter (fun r => negb (owned_by id r)) (animal_table db);
     next_animal_id := next_animal_id db;
     out_of_order := out_of_order db |}.

(** The database without the rows of person [id]. *)
Definition without_person (db : Database) (id : Z) : Database :=
  {| person_table :=
       filter (fun p => negb (Z.eqb (Person.id p) id)) (person_table db);
     animal_table := animal_table db;
     next_animal_id := next_animal_id db;
     out_of_order := out_of_order db |}.

(** The database after [personRepository.save(p)] of a loaded entity. *)
Definition person_saved (db : Database) (p : Person.t) : Database :=
  {| person_table :=
       map (fun q => if Z.eqb (Person.id q) (Person.id p) then p else q)
           (person_table db);
     animal_table := animal_table db;
     next_animal_id := next_animal_id db;
     out_of_order := out_of_order db |}.

(** The entity [update] saves: the loaded animal, under its new owner
    when one is named and found, with the fields of [data] assigned. *)
Definition updated (db : Database) (r : AnimalRow) (data : UpdateAnimalInput)
  : AnimalWithOwner :=
  match truthy_id (ua_ownerId data) with
  | Some ownerId =>
      assign_animal {| animal := with_owner db r;
                       owner := find_person ownerId db |} data
  | None => assign_animal (with_owner db r) data
  end.

(** The ASCII characters that are white space or line terminators for
    JavaScript: TAB, LF, VT, FF, CR and SPACE. *)
Definition white_space_characters : list ascii :=
  ["009"; "010"; "011"; "012"; "013"; " "]%char.

Definition white_space_character (c : ascii) : bool :=
  existsb (Ascii.eqb c) white_space_characters.

(** The string holds white space only (or nothing). *)
Fixpoint only_white_space (s : string) : bool :=
  match s with
  | EmptyString => true
  | String c rest => andb (white_space_character c) (only_white_space rest)
  end.



(** More sample records. *)
Definition new_pet : CreateAnimalInput :=
  {| ca_name := "Tweety"; ca_dateOfBirth := 1577836800000%Z;
     ca_species := "Bird"; ca_breed := "Canary"; ca_color := "Yellow";
     ca_weight := 0.02%Q; ca_ownerId := 2 |}.

Definition rename_rex : UpdateAnimalInput :=
  {| ua_name := Some "Max"; ua_dateOfBirth := None; ua_species := None;
     ua_breed := None; ua_color := None; ua_weight := Some 31%Q;
     ua_ownerId := None |}.

Definition new_phone : UpdatePersonInput :=
  {| up_lastName := None; up_firstName := None; up_email := None;
     up_phoneNumber := Some "0700000000" |}.

(** Carol has no animal. *)
Definition carol : Person.t :=
  {| Person.id := 3; Person.lastName := "Petit"; Person.firstName := "Carol";
     Person.email := "carol@example.org"; Person.phoneNumber := "0611111111" |}.

Definition sample_db_with_carol : Database :=
  {| person_table := [alice; bob; carol];
     animal_table := animal_table sample_db;
     next_animal_id := 4;
     out_of_order := None |}.

(** Medor loaded without an owner. *)
Definition stray : AnimalWithOwner := {| animal := medor; owner := None |}.

(** An engine that accepts 125000 arguments, and tables of 150000 rows:
    animals that all belong to Alice, and owners without animals. *)
Definition sample_max_arguments : nat := N.to_nat 125000.

Definition herd : list AnimalWithOwner :=
  map (fun n =>
         {| animal :=
              {| Animal.id := Z.of_nat n; Animal.name := "Rex";
                 Animal.dateOfBirth := 1420070400000%Z;
                 Animal.species := "Dog"; Animal.breed := "Labrador";
                 Animal.color := "Black"; Animal.weight := 30.5%Q |};
            owner := Some alice |})
      (seq 1 (N.to_nat 150000)).

Definition crowd : list PersonWithAnimals :=
  map (fun n =>
         {| person :=
              {| Person.id := Z.of_nat n; Person.lastName := "Martin";
                 Person.firstName := "Alice";
                 Person.email := "alice@example.org";
                 Person.phoneNumber := "0600000000" |};
            animals := [] |})
      (seq 1 (N.to_nat 150000)).

(* ================================================================== *)
(** * Properties *)
(* ================================================================== *)

(** ** [Math.max] over finite values *)

Section MaxOfFinite.

Variable A : Type.
Variable f : A -> Q.

Lemma fold_max2_Finite (l : list A) (m : Q) :
  exists m',
    fold_left max2 (map (fun x => Finite (f x)) l) (Finite m) = Finite m'
    /\ (m <= m')%Q
    /\ (forall x, In x l -> (f x <= m')%Q)
    /\ (m' = m \/ exists x, In x l /\ f x = m').
Proof.
  revert m; induction l as [|a l IH]; intros m; simpl.
  - exists m. repeat split; [apply Qle_refl | contradiction | now left].
  - destruct (Qle_bool m (f a)) eqn:E.
    + apply Qle_bool_iff in E.
      destruct (IH (f a)) as (m' & Hf & Hle & Hub & Hin).
      exists m'. repeat split; trivial.
      * eapply Qle_trans; eassumption.
      * intros x [<-|Hx]; auto.
      * right. destruct Hin as [->|(x & Hx & <-)]; eauto.
    + assert (Hlt : (f a <= m)%Q).
      { destruct (Qlt_le_dec m (f a)) as [H|H]; trivial.
        apply Qlt_le_weak, Qle_bool_iff in H. congruence. }
      destruct (IH m) as (m' & Hf & Hle & Hub & Hin).
      exists m'. repeat split; trivial.
      * intros x [<-|Hx]; auto. eapply Qle_trans; eassumption.
      * destruct Hin as [->|(x & Hx & <-)]; eauto.
Qed.

Lemma Math_max_nil : Math_max (map (fun x => Finite (f x)) []) = NegInfinity.
Proof. reflexivity. Qed.

Lemma Math_max_Finite (l : list A) :
  l <> [] ->
  exists m,
    Math_max (map (fun x => Finite (f x)) l) = Finite m
    /\ (forall x, In x l -> (f x <= m)%Q)
    /\ (exists x, In x l /\ f x = m).
Proof.
  destruct l as [|a l]; [congruence|intros _].
  unfold Math_max; simpl.
  destruct (fold_max2_Finite l (f a)) as (m & Hf & Hle & Hub & Hin).
  exists m. repeat split; trivial.
  - intros x [<-|Hx]; auto.
  - destruct Hin as [->|(x & Hx & <-)]; eauto.
Qed.

(** An element passes the [=== max] test exactly when no element has a
    larger value. *)
Lemma strict_eq_Math_max (l : list A) (x : A) :
  In x l ->
  strict_eq (Finite (f x)) (Math_max (map (fun x => Finite (f x)) l)) = true
  <-> (forall y, In y l -> (f y <= f x)%Q).
Proof.
  intros Hx.
  destruct (Math_max_Finite (l := l)) as (m & -> & Hub & (x0 & Hx0 & Hm)).
  { intros ->; contradiction. }
  simpl. rewrite Qeq_bool_iff. split.
  - intros E y Hy. rewrite E. auto.
  - intros H. apply Qle_antisym; [auto|]. rewrite <- Hm. auto.
Qed.

Lemma filter_Math_max (l : list A) (x : A) :
  In x (filter (fun x => strict_eq (Finite (f x)) (Math_max (map (fun x => Finite (f x)) l))) l)
  <-> In x l /\ (forall y, In y l -> (f y <= f x)%Q).
Proof.
  rewrite filter_In. split; intros [Hx H]; split; trivial;
    now apply strict_eq_Math_max.
Qed.

End MaxOfFinite.

(** ** The oldest animals *)

Lemma fold_oldest_date (l : list Animal.t) (m0 m : Date) :
  fold_left
    (fun min animal =>
       if date_lt (Animal.dateOfBirth animal) min
       then Animal.dateOfBirth animal else min) l m0 = m ->
  (m <= m0)%Z
  /\ (forall b, In b l -> (m <= Animal.dateOfBirth b)%Z)
  /\ (m = m0 \/ exists a, In a l /\ Animal.dateOfBirth a = m).
Proof.
  revert m0; induction l as [|x l IH]; intros m0; simpl.
  - intros <-. repeat split; [lia | contradiction | now left].
  - destruct (date_lt (Animal.dateOfBirth x) m0) eqn:H; unfold date_lt in H;
      [apply Z.ltb_lt in H | apply Z.ltb_ge in H]; intros Hm;
      destruct (IH _ Hm) as (Hle & Hlb & Hin).
    + repeat split.
      * lia.
      * intros b [<-|Hb]; auto.
      * right. destruct Hin as [E|(a & Ha & E)]; eauto.
    + repeat split; trivial.
      * intros b [<-|Hb]; auto. lia.
      * destruct Hin as [E|(a & Ha & E)]; eauto.
Qed.

(** C2. [findOldest] returns the empty list for no animal, and for a
    non-empty list exactly the animals whose date of birth is the minimum
    date of birth of the list: the list filtered by that date, so that
    every tied animal is kept and no other one is; that list is not
    empty. *)
Theorem findOldest_minimum_date (animals : list Animal.t) :
  findOldest (Normal []) = Normal []
  /\ (animals <> [] ->
      exists minDate : Date,
        (exists a, In a animals /\ Animal.dateOfBirth a = minDate)
        /\ (forall b, In b animals -> (minDate <= Animal.dateOfBirth b)%Z)
        /\ findOldest (Normal animals)
           = Normal (filter (fun a => (Animal.dateOfBirth a =? minDate)%Z)
                            animals)
        /\ filter (fun a => (Animal.dateOfBirth a =? minDate)%Z) animals
           <> []).
Proof.
  split; [reflexivity|].
  destruct animals as [|first rest]; [congruence|intros _].
  pose (m := fold_left
               (fun min animal =>
                  if date_lt (Animal.dateOfBirth animal) min
                  then Animal.dateOfBirth animal else min)
               (first :: rest) (Animal.dateOfBirth first)).
  destruct (@fold_oldest_date (first :: rest) (Animal.dateOfBirth first) m
              eq_refl) as (Hle & Hlb & Hin).
  assert (Hmin : exists a,
            In a (first :: rest) /\ Animal.dateOfBirth a = m).
  { destruct Hin as [E|Hin]; [|exact Hin].
    exists first. split; [now left|now rewrite E]. }
  exists m. split; [exact Hmin|]. split; [exact Hlb|]. split; [reflexivity|].
  destruct Hmin as (a & Ha & E). intros Hnil.
  assert (Hf : In a (filter (fun a0 => (Animal.dateOfBirth a0 =? m)%Z)
                            (first :: rest))).
  { apply filter_In. split; [exact Ha|]. now apply Z.eqb_eq. }
  rewrite Hnil in Hf. exact Hf.
Qed.

(** ** List facts used below *)



Lemma filter_all {A} (g : A -> bool) (l : list A) :
  (forall x, In x l -> g x = true) -> filter g l = l.
Proof.
  induction l as [|x l IH]; simpl; intros H; trivial.
  rewrite (H x) by now left. f_equal. apply IH. intros; apply H; now right.
Qed.

Lemma filter_none {A} (g : A -> bool) (l : list A) :
  (forall x, In x l -> g x = false) -> filter g l = [].
Proof.
  induction l as [|x l IH]; simpl; intros H; trivial.
  rewrite (H x) by now left. apply IH. intros; apply H; now right.
Qed.



(** ** The spread call *)

Lemma Math_max_spread_within (max_arguments : nat) (xs : list number) :
  (List.length xs <= max_arguments)%nat ->
  Engine.Math_max_spread max_arguments xs = Normal (Math_max xs).
Proof.
  intros H. unfold Engine.Math_max_spread.
  apply Nat.leb_le in H. now rewrite H.
Qed.

Lemma Math_max_spread_beyond (max_arguments : nat) (xs : list number) :
  (max_arguments < List.length xs)%nat ->
  Engine.Math_max_spread max_arguments xs
  = Throw (RangeError "Maximum call stack size exceeded").
Proof.
  intros H. unfold Engine.Math_max_spread.
  apply Nat.leb_gt in H. now rewrite H.
Qed.

(** For rows that the engine accepts as arguments, the queries of
    [Engine] complete as the queries without the limit do. *)
Lemma findHeaviestAnimal_without_limit (max_arguments : nat)
  (animals : list AnimalWithOwner) :
  (List.length animals <= max_arguments)%nat ->
  Engine.findHeaviestAnimal max_arguments (Normal animals)
  = findHeaviestAnimal (Normal animals).
Proof.
  intros Hfit. unfold Engine.findHeaviestAnimal, findHeaviestAnimal.
  destruct animals as [|a0 rest]; [reflexivity|]. cbn [bind].
  rewrite Math_max_spread_within by now rewrite length_map.
  reflexivity.
Qed.

Lemma findTopOwners_without_limit (max_arguments : nat)
  (persons : list PersonWithAnimals) :
  (List.length persons <= max_arguments)%nat ->
  Engine.findTopOwners max_arguments (Normal persons)
  = findTopOwners (Normal persons).
Proof.
  intros Hfit. unfold Engine.findTopOwners, findTopOwners.
  destruct persons as [|p0 rest]; [reflexivity|]. cbn [bind].
  rewrite Math_max_spread_within by now rewrite !length_map.
  reflexivity.
Qed.

Lemma findTopOwnersBySpecies_without_limit (max_arguments : nat)
  (species : string) (persons : list PersonWithAnimals) :
  (List.length persons <= max_arguments)%nat ->
  Engine.findTopOwnersBySpecies max_arguments species (Normal persons)
  = findTopOwnersBySpecies species (Normal persons).
Proof.
  intros Hfit. unfold Engine.findTopOwnersBySpecies, findTopOwnersBySpecies.
  destruct (blank species); [reflexivity|]. cbn [bind].
  rewrite Math_max_spread_within by now rewrite !length_map.
  reflexivity.
Qed.

Lemma findHeaviestGroups_without_limit (max_arguments : nat)
  (persons : list PersonWithAnimals) :
  (List.length persons <= max_arguments)%nat ->
  Engine.findHeaviestGroups max_arguments Qplus (Normal persons)
  = findHeaviestGroups (Normal persons).
Proof.
  intros Hfit. unfold Engine.findHeaviestGroups, findHeaviestGroups.
  cbn [bind].
  rewrite Math_max_spread_within by now rewrite !length_map.
  reflexivity.
Qed.

(** ** The heaviest animals *)

Lemma map_throwing_heaviest_entry (l : list AnimalWithOwner) :
  forallb has_owner l = true ->
  exists entries,
    map_throwing heaviest_entry l = Normal entries
    /\ Forall2 carries l entries.
Proof.
  induction l as [|a l IH]; simpl; intros H.
  - exists []. split; [reflexivity|constructor].
  - apply andb_true_iff in H as [Ha Hl].
    destruct (IH Hl) as (entries & -> & HF).
    unfold heaviest_entry, has_owner in *.
    destruct (owner a) as [o|] eqn:Eo; [|discriminate]. simpl.
    eexists. split; [reflexivity|]. constructor; trivial.
    exists o. split; [exact Eo|reflexivity].
Qed.

Lemma forallb_filter {A} (g h : A -> bool) (l : list A) :
  forallb g l = true -> forallb g (filter h l) = true.
Proof.
  rewrite !forallb_forall. intros H x Hx. apply filter_In in Hx. now apply H.
Qed.

(** X25. [findHeaviestAnimal] returns [null] for no animal.  For a
    non-empty list of animals that the engine accepts as arguments, each
    loaded with its owner, it returns one entry for every animal whose
    weight is the maximum weight of the list and for no other animal, and
    the entry carries the owner's id and the full name
    [firstName + " " + lastName]. *)
Lemma findHeaviestAnimal_within_limit (max_arguments : nat)
  (animals : list AnimalWithOwner) :
  Engine.findHeaviestAnimal max_arguments (Normal []) = Normal None
  /\ (animals <> [] ->
      forallb has_owner animals = true ->
      (List.length animals <= max_arguments)%nat ->
      exists (maxWeight : Q) (entries : list HeaviestAnimal),
        (exists a, In a animals /\ Animal.weight a = maxWeight)
        /\ (forall b, In b animals -> (Animal.weight b <= maxWeight)%Q)
        /\ Engine.findHeaviestAnimal max_arguments (Normal animals)
           = Normal (Some entries)
        /\ Forall2 carries
             (filter (fun a : AnimalWithOwner =>
                        Qeq_bool (Animal.weight a) maxWeight) animals)
             entries).
Proof.
  split; [reflexivity|].
  intros Hne Hown Hfit.
  destruct (Math_max_Finite
              (fun a : AnimalWithOwner => Animal.weight a) Hne)
    as (m & Hmax & Hub & Hin).
  destruct animals as [|a0 rest]; [congruence|].
  unfold Engine.findHeaviestAnimal. cbn [bind try_catch].
  rewrite Math_max_spread_within by now rewrite length_map.
  cbn [bind]. rewrite Hmax. cbn [strict_eq].
  destruct (map_throwing_heaviest_entry
              (filter (fun a : AnimalWithOwner =>
                         Qeq_bool (Animal.weight a) m) (a0 :: rest)))
    as (entries & -> & HF).
  { now apply forallb_filter. }
  exists m, entries. repeat split; trivial.
Qed.

(** [findOldest] takes its minimum with [reduce]: whatever the number of
    animals, it returns normally, and some animal when there is one. *)
Lemma findOldest_any_number (animals : list Animal.t) :
  animals <> [] ->
  exists oldest, findOldest (Normal animals) = Normal oldest /\ oldest <> [].
Proof.
  destruct animals as [|first rest]; [congruence|intros _].
  pose (m := fold_left
               (fun min animal =>
                  if date_lt (Animal.dateOfBirth animal) min
                  then Animal.dateOfBirth animal else min)
               (first :: rest) (Animal.dateOfBirth first)).
  destruct (@fold_oldest_date (first :: rest) (Animal.dateOfBirth first) m
              eq_refl) as (_ & _ & Hin).
  assert (Hmin : exists a,
            In a (first :: rest) /\ Animal.dateOfBirth a = m).
  { destruct Hin as [E|Hin]; [|exact Hin].
    exists first. split; [now left|now rewrite E]. }
  eexists. split; [reflexivity|].
  destruct Hmin as (a & Ha & E). intros Hnil.
  assert (Hf : In a (filter (fun animal =>
                               same_ISOString (Animal.dateOfBirth animal) m)
                            (first :: rest))).
  { apply filter_In. split; [exact Ha|]. now apply Z.eqb_eq. }
  fold m in Hnil. rewrite Hnil in Hf. exact Hf.
Qed.

(** C3. [findHeaviestAnimal] hands every weight to one call,
    [Math.max(...weights)].  As soon as the animals are more than the
    arguments the engine accepts, the call throws and the query fails
    with the internal error instead of returning the heaviest animals;
    [findOldest], which reduces the same rows, returns its animals. *)
Theorem findHeaviestAnimal_argument_limit (max_arguments : nat)
  (animals : list AnimalWithOwner) :
  (max_arguments < List.length animals)%nat ->
  Engine.findHeaviestAnimal max_arguments (Normal animals)
  = Throw (InternalServerErrorException
             "Erreur lors de la recherche de l'animal le plus lourd")
  /\ exists oldest,
       findOldest (Normal (map animal animals)) = Normal oldest
       /\ oldest <> [].
Proof.
  intros Hmany. split.
  - destruct animals as [|a0 rest]; [simpl in Hmany; lia|].
    unfold Engine.findHeaviestAnimal. cbn [bind try_catch].
    rewrite Math_max_spread_beyond by now rewrite length_map.
    reflexivity.
  - apply findOldest_any_number. intros Hnil.
    apply (f_equal (@List.length _)) in Hnil.
    rewrite length_map in Hnil. simpl in Hnil. lia.
Qed.

(** ** The top owners *)


(** C6. [findTopOwners] hands every count to one call,
    [Math.max(...counts)].  As soon as the owners are more than the
    arguments the engine accepts, the call throws and the query fails
    with the internal error instead of returning the owners of maximum
    count. *)
Theorem findTopOwners_argument_limit (max_arguments : nat)
  (persons : list PersonWithAnimals) :
  (max_arguments < List.length persons)%nat ->
  Engine.findTopOwners max_arguments (Normal persons)
  = Throw (InternalServerErrorException
             "Une erreur est survenue lors de la récupération des propriétaires avec le plus d'animaux").
Proof.
  intros Hmany.
  destruct persons as [|p0 rest]; [simpl in Hmany; lia|].
  unfold Engine.findTopOwners. cbn [bind try_catch].
  rewrite Math_max_spread_beyond by now rewrite !length_map.
  reflexivity.
Qed.

(** ** The top owners by species *)

Lemma nat_of_lower_ascii (c : ascii) :
  nat_of_ascii (lower_ascii c)
  = if capital (nat_of_ascii c) then (nat_of_ascii c + 32)%nat
    else nat_of_ascii c.
Proof.
  unfold lower_ascii, capital.
  destruct (andb _ _) eqn:E; [|reflexivity].
  apply andb_true_iff in E as [_ E]. apply Nat.leb_le in E.
  apply nat_ascii_embedding. lia.
Qed.

(** Comparing the lower-case forms of two characters is comparing the
    characters with their case ignored. *)
Lemma same_letter_lower_ascii (c d : ascii) :
  Ascii.eqb (lower_ascii c) (lower_ascii d) = same_letter c d.
Proof.
  assert (H : lower_ascii c = lower_ascii d
              <-> nat_of_ascii (lower_ascii c) = nat_of_ascii (lower_ascii d)).
  { split; [congruence|]. intros E.
    rewrite <- (ascii_nat_embedding (lower_ascii c)), E.
    apply ascii_nat_embedding. }
  destruct (Ascii.eqb_spec (lower_ascii c) (lower_ascii d)) as [E|E];
    rewrite H in E; rewrite !nat_of_lower_ascii in E;
    unfold same_letter, capital in *;
    set (m := nat_of_ascii c) in *; set (n := nat_of_ascii d) in *;
    destruct (Nat.leb_spec 65 m), (Nat.leb_spec m 90),
             (Nat.leb_spec 65 n), (Nat.leb_spec n 90),
             (Nat.eqb_spec m n), (Nat.eqb_spec n (m + 32)),
             (Nat.eqb_spec m (n + 32));
    cbn in *; try reflexivity; lia.
Qed.

Lemma same_ignoring_case_toLowerCase (s t : string) :
  String.eqb (toLowerCase s) (toLowerCase t) = same_ignoring_case s t.
Proof.
  revert t. induction s as [|c s IH]; intros [|d t]; simpl; trivial.
  now rewrite same_letter_lower_ascii, IH.
Qed.


(** C5. [findTopOwnersBySpecies] hands every count to one call,
    [Math.max(...counts)].  For a species of ASCII text that is not
    blank, as soon as the owners are more than the arguments the engine
    accepts, the call throws and the query fails with the internal error
    instead of returning the owners of maximum count, or the empty list
    when no animal is of the species. *)
Theorem findTopOwnersBySpecies_argument_limit (max_arguments : nat)
  (species : string) (persons : list PersonWithAnimals) :
  ascii_only species = true ->
  blank species = false ->
  (max_arguments < List.length persons)%nat ->
  Engine.findTopOwnersBySpecies max_arguments species (Normal persons)
  = Throw (InternalServerErrorException
             "Erreur lors de la recherche des propriétaires pour l'espèce spécifiée").
Proof.
  intros _ Hblank Hmany.
  unfold Engine.findTopOwnersBySpecies. rewrite Hblank.
  cbn [bind try_catch].
  rewrite Math_max_spread_beyond by now rewrite !length_map.
  reflexivity.
Qed.


(** ** The paged list queries *)

Lemma row_count_of_Z (z : Z) :
  (0 <= z)%Z -> row_count (of_Z z) = Some (Z.to_nat z).
Proof.
  intros H. unfold row_count, of_Z, inject_Z. simpl.
  destruct (Z.leb_spec 0 z); [reflexivity|lia].
Qed.

Lemma is_set_of_Z (z : Z) : is_set (Some (of_Z z)) = negb (Z.eqb z 0).
Proof. destruct z; reflexivity. Qed.

(** The page for a start that is not negative and a limit above 0. *)
Lemma page_of_numbers {A} (condition : option (A -> bool)) (start limit : Z)
  (rows : list A) :
  (0 <= start)%Z -> (0 < limit)%Z ->
  page_of {| where_clause := condition;
             skip_value := Some (of_Z start);
             take_value := Some (of_Z limit) |} rows
  = Normal (firstn (Z.to_nat limit) (skipn (Z.to_nat start) rows)).
Proof.
  intros Hs Hl. unfold page_of. cbn [skip_value take_value option_map].
  rewrite !is_set_of_Z, !row_count_of_Z by lia.
  destruct (Z.eqb_spec limit 0); [lia|].
  destruct (Z.eqb_spec start 0) as [->|]; reflexivity.
Qed.

(** With both numbers given, the limit above 0, the animals query
    filters first, counts the filtered rows, and cuts the page out of
    them. *)
Lemma findAllAnimals_page (start limit : Z) (species : arg string)
  (rows : list AnimalWithOwner) :
  (0 <= start)%Z -> (0 < limit)%Z ->
  findAllAnimals (Value start) (Value limit) species (Normal rows)
  = Normal (firstn (Z.to_nat limit)
              (skipn (Z.to_nat start) (matching_species species rows)),
            length_of (matching_species species rows)).
Proof.
  intros Hs Hl.
  unfold findAllAnimals, AnimalService_findAll, matching_species, Number.
  cbn [skip take of_Z bind try_catch].
  unfold getManyAndCount. cbn [bind].
  fold (of_Z start) (of_Z limit).
  destruct (truthy_string species);
    cbn [where_lower_species createQueryBuilder where_clause skip_value];
    rewrite page_of_numbers by trivial; reflexivity.
Qed.

(** The total count does not depend on the page asked for. *)
Lemma findAllAnimals_totalCount (start limit start' limit' : Z)
  (species : arg string) (rows : list AnimalWithOwner) :
  (0 <= start)%Z -> (0 < limit)%Z -> (0 <= start')%Z -> (0 < limit')%Z ->
  exists page page' total,
    findAllAnimals (Value start) (Value limit) species (Normal rows)
    = Normal (page, total)
    /\ findAllAnimals (Value start') (Value limit') species (Normal rows)
       = Normal (page', total)
    /\ total = length_of (matching_species species rows).
Proof.
  intros. rewrite !findAllAnimals_page by trivial.
  do 3 eexists. repeat split.
Qed.

(** Fifteen matching animals, [start = 10], [limit = 12]: five animals
    and a total of fifteen. *)
Lemma findAllAnimals_last_page (species : arg string)
  (rows : list AnimalWithOwner) :
  List.length (matching_species species rows) = 15%nat ->
  exists page,
    findAllAnimals (Value 10%Z) (Value 12%Z) species (Normal rows)
    = Normal (page, 15%Z)
    /\ List.length page = 5%nat.
Proof.
  intros H. rewrite findAllAnimals_page by lia. unfold length_of. rewrite H.
  eexists. split; [reflexivity|].
  rewrite length_firstn, length_skipn, H. reflexivity.
Qed.

(** The owners query takes its defaults in the resolver: offset 0 and
    page size 12. *)
Lemma paginatedPersons_defaults (rows : list PersonWithAnimals) :
  paginatedPersons Undefined Undefined (Normal rows)
  = Normal (firstn 12 rows, length_of rows).
Proof. reflexivity. Qed.

Lemma paginatedPersons_page (start limit : Z) (rows : list PersonWithAnimals) :
  (0 <= start)%Z -> (0 < limit)%Z ->
  paginatedPersons (Value start) (Value limit) (Normal rows)
  = Normal (firstn (Z.to_nat limit) (skipn (Z.to_nat start) rows),
            length_of rows).
Proof.
  intros Hs Hl. unfold paginatedPersons, PersonService_findAll, Number.
  cbn [nullish skip take of_Z bind try_catch].
  unfold getManyAndCount.
  cbn [bind createQueryBuilder where_clause skip_value].
  fold (of_Z start) (of_Z limit).
  rewrite page_of_numbers by trivial. reflexivity.
Qed.

(** C1. The animals query has no default for [start] and [limit]: the
    resolver forwards [undefined], the service computes
    [Number(undefined)], which is [NaN], and the query fails with the
    internal error instead of returning the first page of twelve; the
    owners query applies the defaults 0 and 12 in its resolver. *)
Theorem findAllAnimals_has_no_defaults
  (species : arg string) (rows : list AnimalWithOwner)
  (persons : list PersonWithAnimals) :
  Number Undefined = NaN
  /\ findAllAnimals Undefined Undefined species (Normal rows)
     = Throw (InternalServerErrorException
                "Erreur lors de la récupération paginée des animaux")
  /\ findAllAnimals Undefined Undefined species (Normal rows)
     <> findAllAnimals (Value 0%Z) (Value 12%Z) species (Normal rows)
  /\ paginatedPersons Undefined Undefined (Normal persons)
     = paginatedPersons (Value 0%Z) (Value 12%Z) (Normal persons).
Proof.
  split; [reflexivity|]. split; [reflexivity|]. split.
  - rewrite findAllAnimals_page by lia. discriminate.
  - reflexivity.
Qed.

(** ** Creating and updating an animal *)

Lemma find_person_id (id : Z) (db : Database) (p : Person.t) :
  find_person id db = Some p -> Person.id p = id.
Proof.
  unfold find_person. intros H. apply find_some in H as [_ H].
  now apply Z.eqb_eq.
Qed.

Lemma find_animal_row_id (id : Z) (db : Database) (r : AnimalRow) :
  find_animal_row id db = Some r -> Animal.id (columns r) = id.
Proof.
  unfold find_animal_row. intros H. apply find_some in H as [_ H].
  now apply Z.eqb_eq.
Qed.

(** X21. Creating an animal for an owner that does not exist throws the
    not-found exception and writes nothing. *)
Lemma create_unknown_owner (data : CreateAnimalInput) (db : Database) :
  out_of_order db = None ->
  find_person (ca_ownerId data) db = None ->
  AnimalService_create data db
  = (Throw (NotFoundException
              ("Propriétaire avec l'id " ++ toString (ca_ownerId data)
               ++ " non trouvé")), db).
Proof.
  intros Hok Hnone.
  unfold AnimalService_create, try_catch_async, bind_async,
    personRepository_findOneBy, query.
  rewrite Hok, Hnone. reflexivity.
Qed.

(** Creating an animal for an existing owner inserts it. *)
Lemma create_known_owner (data : CreateAnimalInput) (db : Database)
  (o : Person.t) :
  out_of_order db = None ->
  find_person (ca_ownerId data) db = Some o ->
  exists a db',
    AnimalService_create data db = (Normal a, db')
    /\ owner a = Some o
    /\ animal_table db'
       = (animal_table db
          ++ [{| columns := a; owner_id := Some (ca_ownerId data) |}])%list.
Proof.
  intros Hok Hsome.
  unfold AnimalService_create, try_catch_async, bind_async,
    personRepository_findOneBy, animalRepository_save_created, query.
  rewrite Hok, Hsome. cbn. rewrite Hok.
  do 2 eexists. split; [reflexivity|]. split; [reflexivity|].
  cbn. now rewrite (find_person_id _ _ Hsome).
Qed.

(** X22. Moving an animal to an owner that does not exist, under an id
    other than 0, throws the not-found exception and writes nothing. *)
Lemma update_unknown_owner (id ownerId : Z) (data : UpdateAnimalInput)
  (db : Database) (r : AnimalRow) :
  out_of_order db = None ->
  find_animal_row id db = Some r ->
  ua_ownerId data = Some ownerId ->
  ownerId <> 0%Z ->
  find_person ownerId db = None ->
  AnimalService_update id data db
  = (Throw (NotFoundException
              ("Propriétaire avec l'id " ++ toString ownerId ++ " non trouvé")),
     db).
Proof.
  intros Hok Hrow Hdata Hnz Hnone.
  unfold AnimalService_update, try_catch_async, bind_async,
    animalRepository_findOne_owner, personRepository_findOneBy, query,
    truthy_id.
  rewrite Hok, Hrow, Hdata. cbn.
  destruct (Z.eqb_spec ownerId 0) as [|_]; [contradiction|].
  rewrite Hok, Hnone. reflexivity.
Qed.

Lemma find_replaced_row (id : Z) (new : AnimalRow) (rows : list AnimalRow)
  (r : AnimalRow) :
  Animal.id (columns new) = id ->
  find (fun r => Z.eqb (Animal.id (columns r)) id) rows = Some r ->
  find (fun r => Z.eqb (Animal.id (columns r)) id)
       (map (fun r => if Z.eqb (Animal.id (columns r)) id then new else r)
            rows)
  = Some new.
Proof.
  intros Hnew. induction rows as [|x rows IH]; simpl; [discriminate|].
  destruct (Z.eqb_spec (Animal.id (columns x)) id) as [E|E].
  - intros _. rewrite Hnew, Z.eqb_refl. reflexivity.
  - destruct (Z.eqb_spec (Animal.id (columns x)) id); [contradiction|].
    exact IH.
Qed.

(** Moving an animal to an existing owner succeeds: the entity returned
    has the new owner and the row of the animal carries the new owner's
    id. *)
Lemma update_known_owner (id ownerId : Z) (data : UpdateAnimalInput)
  (db : Database) (r : AnimalRow) (o : Person.t) :
  out_of_order db = None ->
  find_animal_row id db = Some r ->
  ua_ownerId data = Some ownerId ->
  ownerId <> 0%Z ->
  find_person ownerId db = Some o ->
  exists a db' r',
    AnimalService_update id data db = (Normal a, db')
    /\ owner a = Some o
    /\ find_animal_row id db' = Some r'
    /\ owner_id r' = Some ownerId
    /\ person_table db' = person_table db.
Proof.
  intros Hok Hrow Hdata Hnz Hsome.
  unfold AnimalService_update, try_catch_async, bind_async,
    animalRepository_findOne_owner, personRepository_findOneBy,
    animalRepository_save, query, truthy_id.
  rewrite Hok, Hrow, Hdata. cbn.
  destruct (Z.eqb_spec ownerId 0) as [|_]; [contradiction|].
  rewrite Hok, Hsome. cbn. rewrite Hok.
  do 3 eexists. split; [reflexivity|]. split; [reflexivity|].
  unfold find_animal_row. cbn [animal_table person_table].
  rewrite (find_animal_row_id _ _ Hrow).
  split; [|split; [|reflexivity]].
  - eapply find_replaced_row; [|exact Hrow]. reflexivity.
  - cbn. now rewrite (find_person_id _ _ Hsome).
Qed.

(** C7. An update that names owner 0 is not checked: no person has id 0
    in the sample database, yet updating Rex with [ownerId = 0] returns
    normally (Rex keeps Alice) instead of throwing the not-found
    exception; with the unknown id 99 the same update throws it. *)
Theorem update_owner_zero_is_not_checked :
  find_person 0 sample_db = None
  /\ AnimalService_update 1 (only_ownerId 0) sample_db
     = (Normal {| animal := rex; owner := Some alice |}, sample_db)
  /\ AnimalService_update 1 (only_ownerId 99) sample_db
     = (Throw (NotFoundException "Propriétaire avec l'id 99 non trouvé"),
        sample_db).
Proof. repeat split. Qed.

(** ** The failure kinds *)

(** [findOne] of either service keeps the not-found exception. *)
Lemma findOne_not_found (id : Z) (db : Database) :
  out_of_order db = None ->
  find_person id db = None ->
  PersonService_findOne id db
  = (Throw (NotFoundException
              ("Personne avec l'id " ++ toString id ++ " non trouvée")), db).
Proof.
  intros Hok Hnone.
  unfold PersonService_findOne, try_catch_async, bind_async,
    personRepository_findOneBy, query.
  rewrite Hok, Hnone. reflexivity.
Qed.

(** [PersonService.update] turns the not-found exception it throws into
    the internal one. *)
Lemma PersonService_update_not_found (id : Z) (data : UpdatePersonInput)
  (db : Database) :
  out_of_order db = None ->
  find_person id db = None ->
  PersonService_update id data db
  = (Throw (InternalServerErrorException
              "Une erreur est survenue lors de la mise à jour"), db).
Proof.
  intros Hok Hnone.
  unfold PersonService_update, try_catch_async, bind_async,
    personRepository_findOneBy, query.
  rewrite Hok, Hnone. reflexivity.
Qed.

(** An unexpected failure of the database comes out of [findOne] as the
    internal exception with its fixed message, whatever the cause. *)
Lemma findOne_unexpected_failure (id : Z) (db : Database) (cause : string) :
  out_of_order db = Some (QueryFailedError cause) ->
  PersonService_findOne id db
  = (Throw (InternalServerErrorException
              "Erreur lors de la récupération de la personne"), db).
Proof.
  intros Hko.
  unfold PersonService_findOne, try_catch_async, bind_async,
    personRepository_findOneBy, query.
  rewrite Hko. reflexivity.
Qed.

(** A blank species is the bad-request exception, whatever the
    repository would answer. *)
Lemma findTopOwnersBySpecies_blank (species : string)
  (found : Completion (list PersonWithAnimals)) :
  blank species = true ->
  findTopOwnersBySpecies species found
  = Throw (BadRequestException "Le champ 'species' ne peut pas être vide.").
Proof.
  intros H. unfold findTopOwnersBySpecies. rewrite H. reflexivity.
Qed.

(** C8. Updating a person that does not exist: no person has id 99 in
    the sample database, [findOne] throws the not-found exception, and
    [update] throws the internal exception in its place. *)
Theorem PersonService_update_hides_not_found :
  find_person 99 sample_db = None
  /\ PersonService_findOne 99 sample_db
     = (Throw (NotFoundException "Personne avec l'id 99 non trouvée"),
        sample_db)
  /\ PersonService_update 99 no_change sample_db
     = (Throw (InternalServerErrorException
                 "Une erreur est survenue lors de la mise à jour"),
        sample_db).
Proof. repeat split. Qed.

(** ** The translated fields *)

(** Every request of [translate] asks for French from English. *)
Lemma translate_target_language (text : string) :
  request_url text "fr" "en"
  = "https://api.mymemory.translated.net/get?q=" ++ encodeURIComponent text
    ++ "&langpair=en|fr".
Proof. reflexivity. Qed.

(** [translate] never throws. *)
Lemma translate_completes (fetch : string -> Completion Response)
  (text : string) :
  exists s, translate fetch text = Normal s.
Proof.
  unfold translate, translate_between.
  destruct (String.eqb text ""); [eauto|].
  destruct (fetch _) as [response|e]; cbn; [|eauto].
  destruct (json response); cbn; eauto.
Qed.

(** When the call fails, [translate] returns the text it was given. *)
Lemma translate_failure (fetch : string -> Completion Response)
  (text : string) :
  call_fails fetch text = true -> translate fetch text = Normal text.
Proof.
  unfold call_fails, translate, translate_between.
  destruct (String.eqb text ""); [reflexivity|].
  destruct (fetch _) as [response|e]; cbn; [|reflexivity].
  destruct (json response); cbn; [discriminate|reflexivity].
Qed.



(** ** The most common species *)

(** C4. One animal of species "__proto__": the count is read through
    the prototype chain, the assignment creates no property, the object
    has no entry and reading [sorted[0][1]] throws, so that the query
    fails with the internal exception although the list is not empty.
    One animal of species "constructor": the count returned is a string,
    not 1. *)
Theorem findMostCommonSpecies_inherited_keys
  (fetch : string -> Completion Response) :
  findMostCommonSpecies fetch (Normal [proto_pet])
  = Throw (InternalServerErrorException
             "Erreur lors de la recherche de l'espèce la plus représentée")
  /\ exists translated,
       findMostCommonSpecies fetch (Normal [constructor_pet])
       = Normal (Some [{| mc_species := "constructor";
                          mc_count :=
                            VString "function Object() { [native code] }1";
                          mc_specieTranslated := translated |}]).
Proof.
  split; [reflexivity|].
  destruct (translate_completes fetch "constructor") as [t Ht].
  exists t. cbv -[translate]. rewrite Ht. reflexivity.
Qed.

(** ** The theorems at sample records *)

Lemma findOldest_minimum_date_sample :
  [rex; felix; medor] <> []
  /\ exists minDate : Date,
       (exists a, In a [rex; felix; medor] /\ Animal.dateOfBirth a = minDate)
       /\ (forall b, In b [rex; felix; medor] ->
                     (minDate <= Animal.dateOfBirth b)%Z)
       /\ findOldest (Normal [rex; felix; medor])
          = Normal (filter (fun a => (Animal.dateOfBirth a =? minDate)%Z)
                           [rex; felix; medor])
       /\ filter (fun a => (Animal.dateOfBirth a =? minDate)%Z)
                 [rex; felix; medor]
          <> [].
Proof.
  split; [discriminate|].
  apply (proj2 (findOldest_minimum_date [rex; felix; medor])). discriminate.
Defined.

Lemma findHeaviestAnimal_argument_limit_sample :
  (sample_max_arguments < List.length herd)%nat
  /\ Engine.findHeaviestAnimal sample_max_arguments (Normal herd)
     = Throw (InternalServerErrorException
                "Erreur lors de la recherche de l'animal le plus lourd")
  /\ exists oldest,
       findOldest (Normal (map animal herd)) = Normal oldest
       /\ oldest <> [].
Proof.
  assert (H : (sample_max_arguments < List.length herd)%nat).
  { unfold herd, sample_max_arguments. rewrite length_map, length_seq. lia. }
  split; [exact H|].
  exact (@findHeaviestAnimal_argument_limit sample_max_arguments herd H).
Defined.

Lemma findTopOwners_argument_limit_sample :
  (sample_max_arguments < List.length crowd)%nat
  /\ Engine.findTopOwners sample_max_arguments (Normal crowd)
     = Throw (InternalServerErrorException
                "Une erreur est survenue lors de la récupération des propriétaires avec le plus d'animaux").
Proof.
  assert (H : (sample_max_arguments < List.length crowd)%nat).
  { unfold crowd, sample_max_arguments. rewrite length_map, length_seq. lia. }
  split; [exact H|].
  exact (@findTopOwners_argument_limit sample_max_arguments crowd H).
Defined.

Lemma findTopOwnersBySpecies_argument_limit_sample :
  ascii_only "Dog" = true
  /\ blank "Dog" = false
  /\ (sample_max_arguments < List.length crowd)%nat
  /\ Engine.findTopOwnersBySpecies sample_max_arguments "Dog" (Normal crowd)
     = Throw (InternalServerErrorException
                "Erreur lors de la recherche des propriétaires pour l'espèce spécifiée").
Proof.
  assert (H : (sample_max_arguments < List.length crowd)%nat).
  { unfold crowd, sample_max_arguments. rewrite length_map, length_seq. lia. }
  split; [reflexivity|]. split; [reflexivity|]. split; [exact H|].
  exact (@findTopOwnersBySpecies_argument_limit sample_max_arguments "Dog"
           crowd eq_refl eq_refl H).
Defined.



(** ** The species count for species that name nothing inherited *)

Lemma add_of_Z (a b : Z) : add (of_Z a) (of_Z b) = of_Z (a + b).
Proof.
  unfold add, of_Z, inject_Z, Qplus. cbn [Qnum Qden]. do 2 f_equal. lia.
Qed.

Lemma occurrences_app (s : string) (l l' : list Animal.t) :
  occurrences s (l ++ l') = (occurrences s l + occurrences s l')%nat.
Proof. unfold occurrences. now rewrite filter_app, length_app. Qed.

Lemma occurrences_one (s : string) (a : Animal.t) :
  occurrences s [a] = if String.eqb (Animal.species a) s then 1%nat else 0%nat.
Proof. unfold occurrences. simpl. now destruct (String.eqb _ _). Qed.

Lemma get_plain_absent (o : object) (s : string) :
  plain_species s = true -> own_property o s = None -> get o s = VUndefined.
Proof.
  unfold plain_species, get. intros H ->.
  apply andb_true_iff in H as [H1 H2].
  apply negb_true_iff in H1, H2. now rewrite H1, H2.
Qed.

Lemma set_plain (o : object) (s : string) (v : value) :
  plain_species s = true -> set o s v = put o s v.
Proof.
  unfold plain_species, set. intros H.
  apply andb_true_iff in H as [H1 _]. apply negb_true_iff in H1.
  now rewrite H1.
Qed.

Lemma own_property_Some (o : object) (s : string) (v : value) :
  own_property o s = Some v -> In (s, v) o.
Proof.
  unfold own_property. destruct (find _ o) as [[k w]|] eqn:E; [|discriminate].
  simpl. intros [= <-]. apply find_some in E as [Hin Hk].
  apply String.eqb_eq in Hk. simpl in Hk. now subst.
Qed.

Lemma own_property_None (o : object) (s : string) (v : value) :
  own_property o s = None -> ~ In (s, v) o.
Proof.
  unfold own_property. destruct (find _ o) eqn:E; [discriminate|].
  intros _ Hin. apply (find_none _ _ E) in Hin. simpl in Hin.
  now rewrite String.eqb_refl in Hin.
Qed.

Lemma put_keys (o : object) (key : string) (v : value) :
  map fst (put o key v)
  = if existsb (String.eqb key) (map fst o) then map fst o
    else (map fst o ++ [key])%list.
Proof.
  induction o as [|[k w] o IH]; simpl; trivial.
  rewrite (String.eqb_sym key k).
  destruct (String.eqb k key); simpl; trivial.
  rewrite IH. now destruct (existsb _ _).
Qed.

Lemma put_NoDup (o : object) (key : string) (v : value) :
  NoDup (map fst o) -> NoDup (map fst (put o key v)).
Proof.
  intros H. rewrite put_keys.
  destruct (existsb _ _) eqn:E; trivial.
  apply NoDup_app; trivial.
  - repeat constructor. intros [].
  - intros k Hk [<-|[]].
    assert (existsb (String.eqb key) (map fst o) = true); [|congruence].
    apply existsb_exists. exists key. split; trivial. apply String.eqb_refl.
Qed.

Lemma put_In (o : object) (key : string) (v : value) (k : string)
  (w : value) :
  NoDup (map fst o) ->
  In (k, w) (put o key v)
  <-> (k = key /\ w = v) \/ (k <> key /\ In (k, w) o).
Proof.
  induction o as [|[k0 w0] o IH]; simpl; intros Hnd.
  - split.
    + intros [[= <- <-]|[]]. now left.
    + intros [[-> ->]|[_ []]]. now left.
  - inversion Hnd as [|? ? Hk0 Hnd']; subst.
    destruct (String.eqb_spec k0 key) as [->|Hne]; simpl.
    + split.
      * intros [[= <- <-]|Hin]; [now left|].
        right. split; [|now right]. intros ->. apply Hk0.
        now apply (in_map fst) in Hin.
      * intros [[-> ->]|[Hne [[= <- <-]|Hin]]]; [now left|congruence|now right].
    + rewrite (IH Hnd'). split.
      * intros [[= <- <-]|[H|[H1 H2]]]; [right; split; auto|now left|].
        right. split; auto.
      * intros [H|[H1 [[= <- <-]|H2]]]; [right; now left|now left|].
        right. right. split; auto.
Qed.

Lemma or_zero_positive (n : nat) :
  (0 < n)%nat ->
  or_zero (VNumber (of_Z (Z.of_nat n))) = VNumber (of_Z (Z.of_nat n)).
Proof.
  intros H. unfold or_zero, of_Z.
  destruct (Qeq_bool (inject_Z (Z.of_nat n)) 0) eqn:E; trivial.
  apply Qeq_bool_iff in E. unfold Qeq in E. cbn in E. lia.
Qed.

Lemma next_count (pre : list Animal.t) (o : object) (s : string) :
  counts_of pre o ->
  plain_species s = true ->
  plus_one (or_zero (get o s))
  = VNumber (of_Z (Z.of_nat (occurrences s pre) + 1)).
Proof.
  intros [Hnd Hin] Hplain.
  destruct (own_property o s) as [v|] eqn:E.
  - assert (Hget : get o s = v) by (unfold get; now rewrite E).
    apply own_property_Some, Hin in E as [Hpos ->].
    rewrite Hget, or_zero_positive by trivial.
    cbn [plus_one]. now rewrite add_of_Z.
  - rewrite get_plain_absent by trivial.
    assert (Hzero : occurrences s pre = 0%nat).
    { destruct (occurrences s pre) as [|n] eqn:Hn; trivial.
      exfalso. eapply own_property_None; [exact E|].
      apply Hin. split; [rewrite Hn; lia|reflexivity]. }
    rewrite Hzero. reflexivity.
Qed.

Lemma count_one_counts (pre : list Animal.t) (o : object) (a : Animal.t) :
  counts_of pre o ->
  plain_species (Animal.species a) = true ->
  counts_of (pre ++ [a]) (count_one o a).
Proof.
  intros Hc Hplain. unfold count_one.
  rewrite set_plain, (@next_count pre o (Animal.species a) Hc) by trivial.
  destruct Hc as [Hnd Hin]. split; [now apply put_NoDup|].
  intros k v. rewrite put_In by trivial.
  rewrite occurrences_app, occurrences_one.
  destruct (String.eqb_spec (Animal.species a) k) as [->|Hne].
  - replace (Z.of_nat (occurrences k pre + 1)) with
      (Z.of_nat (occurrences k pre) + 1)%Z by lia.
    split.
    + intros [[_ ->]|[Hk _]]; [|congruence]. split; [lia|reflexivity].
    + intros [_ ->]. now left.
  - rewrite Nat.add_0_r, <- Hin. split.
    + intros [[-> _]|[_ H]]; [congruence|trivial].
    + intros H. right. split; [congruence|trivial].
Qed.

Lemma fold_count_one (l pre : list Animal.t) (o : object) :
  counts_of pre o ->
  forallb (fun a => plain_species (Animal.species a)) l = true ->
  counts_of (pre ++ l) (fold_left count_one l o).
Proof.
  revert pre o. induction l as [|a l IH]; simpl; intros pre o Hc Hplain.
  - now rewrite app_nil_r.
  - apply andb_true_iff in Hplain as [Ha Hl].
    replace (pre ++ a :: l)%list with ((pre ++ [a]) ++ l)%list
      by now rewrite <- app_assoc.
    apply IH; trivial. now apply count_one_counts.
Qed.

Lemma counts_of_nil : counts_of [] [].
Proof.
  split; [constructor|]. intros k v. split; [intros []|].
  unfold occurrences. simpl. lia.
Qed.

Lemma insert_by_index_perm (e : string * value) (l : list (string * value)) :
  Permutation (insert_by_index e l) (e :: l).
Proof.
  induction l as [|x l IH]; simpl; [reflexivity|].
  destruct (_ <=? _)%N; [reflexivity|].
  rewrite IH. apply perm_swap.
Qed.

Lemma filter_partition_perm {A} (p : A -> bool) (l : list A) :
  Permutation (filter p l ++ filter (fun x => negb (p x)) l) l.
Proof.
  induction l as [|x l IH]; simpl; [reflexivity|].
  destruct (p x); simpl.
  - now constructor.
  - rewrite <- Permutation_middle. now constructor.
Qed.

Lemma Object_entries_perm (o : object) : Permutation (Object_entries o) o.
Proof.
  unfold Object_entries.
  rewrite <- (filter_partition_perm (fun kv => is_array_index (fst kv)) o)
    at 3.
  apply Permutation_app_tail.
  induction (filter _ o) as [|x l IH]; simpl; [reflexivity|].
  rewrite insert_by_index_perm. now constructor.
Qed.

Lemma insert_sorted_perm (a : string * value) (l : list (string * value)) :
  Permutation (insert_sorted a l) (a :: l).
Proof.
  induction l as [|x l IH]; simpl; [reflexivity|].
  destruct (comparator_positive a x); [|reflexivity].
  rewrite IH. apply perm_swap.
Qed.

Lemma sort_perm (l : list (string * value)) : Permutation (sort l) l.
Proof.
  unfold sort. induction l as [|x l IH]; simpl; [reflexivity|].
  rewrite insert_sorted_perm. now constructor.
Qed.

Lemma insert_sorted_head (a : string * value) (l : list (string * value)) :
  is_finite_count a -> Forall is_finite_count l ->
  head_is_max l -> head_is_max (insert_sorted a l).
Proof.
  intros [qa Ha] Hfin Hmax. destruct l as [|b rest]; simpl.
  - intros e [<-|[]]. apply Qle_refl.
  - inversion Hfin as [|? ? [qb Hb] _]; subst.
    unfold comparator_positive, ToNumber. rewrite Ha, Hb. cbn [gt].
    simpl in Hmax. rewrite Hb in Hmax. cbn [finite_count] in Hmax.
    destruct (Qle_bool qb qa) eqn:E; cbn [negb].
    + apply Qle_bool_iff in E. simpl. rewrite Ha. cbn [finite_count].
      intros e [<-|He].
      * rewrite Ha. apply Qle_refl.
      * eapply Qle_trans; [now apply Hmax|exact E].
    + assert (Hlt : (qa <= qb)%Q).
      { destruct (Qlt_le_dec qb qa) as [H|H]; trivial.
        apply Qlt_le_weak, Qle_bool_iff in H. congruence. }
      simpl. rewrite Hb. cbn [finite_count].
      intros e [<-|He].
      * rewrite Hb. apply Qle_refl.
      * apply (Permutation_in _ (insert_sorted_perm a rest)) in He.
        destruct He as [<-|He]; [now rewrite Ha|].
        apply Hmax. now right.
Qed.

Lemma sort_head (l : list (string * value)) :
  Forall is_finite_count l -> head_is_max (sort l).
Proof.
  unfold sort. induction l as [|x l IH]; simpl; intros Hfin; [exact I|].
  inversion Hfin; subst. apply insert_sorted_head; auto.
  eapply Permutation_Forall; [|eassumption].
  symmetry. apply sort_perm.
Qed.

Lemma filter_keeps_distinct_keys (o : object)
  (keep : string * value -> bool) :
  NoDup (map fst o) -> NoDup (map fst (filter keep o)).
Proof.
  intros Hnd. induction o as [|[k v] o IH]; simpl; [constructor|].
  simpl in Hnd. apply NoDup_cons_iff in Hnd as [Hk Hnd].
  destruct (keep (k, v)); simpl; [|now apply IH].
  apply NoDup_cons; [|now apply IH].
  rewrite in_map_iff. intros ([k' v'] & Hfst & Hin). simpl in Hfst. subst k'.
  apply filter_In in Hin as [Hin _].
  apply Hk, in_map_iff. now exists (k, v').
Qed.

Lemma map_throwing_translate (fetch : string -> Completion Response)
  (l : list (string * value)) :
  exists result,
    map_throwing
      (fun entry : string * value =>
         bind (translate fetch (fst entry))
           (fun specieTranslated =>
              Normal {| mc_species := fst entry;
                        mc_count := snd entry;
                        mc_specieTranslated := specieTranslated |})) l
    = Normal result
    /\ map (fun r => (mc_species r, mc_count r)) result = l.
Proof.
  induction l as [|[s c] l (result & IH & Hmap)]; simpl.
  - exists []. now split.
  - destruct (translate_completes fetch s) as [t ->]. cbn [bind].
    rewrite IH. cbn [bind]. eexists. split; [reflexivity|].
    simpl. now rewrite Hmap.
Qed.

Lemma counts_of_finite (animals : list Animal.t) (o : object) :
  counts_of animals o -> Forall is_finite_count o.
Proof.
  intros [_ Hin]. apply Forall_forall. intros [k v] H.
  apply Hin in H as [_ ->]. now eexists.
Qed.

Lemma of_nat_count_le (n m : nat) :
  (inject_Z (Z.of_nat n) <= inject_Z (Z.of_nat m))%Q <-> (n <= m)%nat.
Proof. rewrite <- Zle_Qle. lia. Qed.

(** X20. For animals whose species name nothing on [Object.prototype],
    the result lists each species of maximal count once, with that count,
    and nothing else. *)
Lemma findMostCommonSpecies_plain (fetch : string -> Completion Response)
  (animals : list Animal.t) :
  animals <> [] ->
  forallb (fun a => plain_species (Animal.species a)) animals = true ->
  exists result,
    findMostCommonSpecies fetch (Normal animals) = Normal (Some result)
    /\ NoDup (map mc_species result)
    /\ forall s c,
         (exists t, In {| mc_species := s; mc_count := c;
                          mc_specieTranslated := t |} result)
         <-> (0 < occurrences s animals)%nat
             /\ c = VNumber (of_Z (Z.of_nat (occurrences s animals)))
             /\ forall s', (occurrences s' animals
                            <= occurrences s animals)%nat.
Proof.
  intros Hne Hplain.
  destruct animals as [|a0 rest]; [congruence|]. clear Hne.
  unfold findMostCommonSpecies. cbn [bind try_catch].
  change (fold_left _ (a0 :: rest) [])
    with (fold_left count_one (a0 :: rest) []).
  set (animals := a0 :: rest) in *.
  pose proof (fold_count_one animals counts_of_nil Hplain) as Hc.
  cbn [app] in Hc. set (o := fold_left count_one animals []) in *.
  pose proof (counts_of_finite Hc) as Hfin.
  assert (Hperm : Permutation (sort (Object_entries o)) o).
  { rewrite sort_perm. apply Object_entries_perm. }
  pose proof (sort_head (l := Object_entries o)) as Hhead.
  specialize (Hhead (Permutation_Forall
                       (Permutation_sym (Object_entries_perm o)) Hfin)).
  destruct Hc as [Hnd Hin].
  destruct (sort (Object_entries o)) as [|[s0 c0] sorted] eqn:Es.
  { exfalso. apply Permutation_nil in Hperm.
    assert (H : In (Animal.species a0,
                    VNumber (of_Z (Z.of_nat
                      (occurrences (Animal.species a0) animals)))) o).
    { apply Hin. split; trivial. unfold occurrences, animals. simpl.
      rewrite String.eqb_refl. simpl. lia. }
    now rewrite Hperm in H. }
  cbn [bind snd].
  destruct (map_throwing_translate fetch
              (filter (fun entry => strict_equal (snd entry) c0)
                      ((s0, c0) :: sorted)))
    as (result & -> & Hmap).
  cbn [bind try_catch]. exists result. split; [reflexivity|].
  assert (H0 : In (s0, c0) o).
  { apply (Permutation_in _ Hperm). now left. }
  apply Hin in H0 as [Hpos0 Hc0].
  split.
  - replace (map mc_species result)
      with (map fst (map (fun r => (mc_species r, mc_count r)) result))
      by (rewrite map_map; reflexivity).
    rewrite Hmap. apply filter_keeps_distinct_keys.
    eapply Permutation_NoDup; [|exact Hnd].
    symmetry. now apply Permutation_map.
  - intros s c.
    assert (Hres :
      (exists t, In {| mc_species := s; mc_count := c;
                       mc_specieTranslated := t |} result)
      <-> In (s, c) (map (fun r => (mc_species r, mc_count r)) result)).
    { rewrite in_map_iff. split.
      - intros [t Ht]. eexists. split; [|exact Ht]. reflexivity.
      - intros ([s' c' t] & [= -> ->] & Hr). eauto. }
    rewrite Hres, Hmap, filter_In. cbn [snd].
    assert (Hsorted : forall e, In e ((s0, c0) :: sorted) <-> In e o).
    { intros e. split; apply Permutation_in; [|symmetry]; exact Hperm. }
    assert (Hmax0 : forall k,
              (0 < occurrences k animals)%nat ->
              (occurrences k animals <= occurrences s0 animals)%nat).
    { intros k Hk. apply of_nat_count_le.
      assert (He : In (k, VNumber (of_Z (Z.of_nat (occurrences k animals))))
                      ((s0, c0) :: sorted)).
      { apply Hsorted, Hin. now split. }
      apply Hhead in He. cbn [snd] in He. now rewrite Hc0 in He. }
    rewrite Hsorted, Hin, Hc0. clear Hres Hmap.
    split.
    + intros [[Hpos ->] Heq]. split; [trivial|]. split; [trivial|].
      cbn [strict_equal strict_eq of_Z] in Heq.
      apply Qeq_bool_iff, inject_Z_injective, Nat2Z.inj in Heq.
      intros s'. rewrite Heq.
      destruct (occurrences s' animals) as [|n] eqn:En; [lia|].
      rewrite <- En. apply Hmax0. lia.
    + intros (Hpos & -> & Hmax). split; [now split|].
      cbn [strict_equal strict_eq of_Z]. apply Qeq_bool_iff.
      apply inject_Z_injective. f_equal.
      apply Nat.le_antisymm; [now apply Hmax0|apply Hmax].
Qed.

(** With no animal the result is [null]. *)
Lemma findMostCommonSpecies_empty (fetch : string -> Completion Response) :
  findMostCommonSpecies fetch (Normal []) = Normal None.
Proof. reflexivity. Qed.

(** Grouping is by the species as stored: "Dog" and "dog" are two
    species. *)
Lemma findMostCommonSpecies_sample :
  findMostCommonSpecies unreachable (Normal [rex; felix; medor; felix])
  = Normal (Some [{| mc_species := "cat";
                     mc_count := VNumber (of_Z 2);
                     mc_specieTranslated := "cat" |}]).
Proof. reflexivity. Qed.

(** ** More on the failure kinds *)

(** An update that names owner 0 skips the owner check, whatever the
    database holds. *)
Lemma update_owner_zero (id : Z) (data : UpdateAnimalInput) (db : Database)
  (r : AnimalRow) :
  out_of_order db = None ->
  find_animal_row id db = Some r ->
  ua_ownerId data = Some 0%Z ->
  exists db',
    AnimalService_update id data db
    = (Normal (assign_animal (with_owner db r) data), db').
Proof.
  intros Hok Hrow Hdata.
  unfold AnimalService_update, try_catch_async, bind_async,
    animalRepository_findOne_owner, animalRepository_save, query, truthy_id.
  rewrite Hok, Hrow, Hdata. cbn. rewrite Hok. eauto.
Qed.

(** The methods of [AnimalService] that look an animal up keep the
    not-found exception. *)
Lemma AnimalService_not_found (fetch : string -> Completion Response)
  (id : Z) (data : UpdateAnimalInput) (db : Database) :
  out_of_order db = None ->
  find_animal_row id db = None ->
  AnimalService_findOne id db
  = (Throw (NotFoundException
              ("Personne avec l'id " ++ toString id ++ " non trouvée")), db)
  /\ findOneWithOwner fetch id db
     = (Throw (NotFoundException
                 ("Animal avec l'id " ++ toString id ++ " non trouvé")), db)
  /\ AnimalService_update id data db
     = (Throw (NotFoundException
                 ("Animal avec l'id " ++ toString id ++ " non trouvé")), db)
  /\ AnimalService_remove id db
     = (Throw (NotFoundException
                 ("Animal avec l'id " ++ toString id ++ " non trouvé")), db).
Proof.
  intros Hok Hnone.
  unfold AnimalService_findOne, findOneWithOwner, AnimalService_update,
    AnimalService_remove, try_catch_async, bind_async,
    animalRepository_findOneBy, animalRepository_findOne_owner, query.
  rewrite Hok, Hnone. repeat split.
Qed.

(** An unexpected failure of the database comes out of the guarded
    methods as the internal exception with a fixed message; [findOldest]
    has no guard and lets the failure through. *)
Lemma unexpected_failure (cause : string) (id : Z) (db : Database)
  (data : UpdatePersonInput) :
  out_of_order db = Some (QueryFailedError cause) ->
  PersonService_update id data db
  = (Throw (InternalServerErrorException
              "Une erreur est survenue lors de la mise à jour"), db)
  /\ AnimalService_findOne id db
     = (Throw (InternalServerErrorException
                 "Erreur lors de la récupération de la personne"), db)
  /\ findTopOwners (Throw (QueryFailedError cause))
     = Throw (InternalServerErrorException
                "Une erreur est survenue lors de la récupération des propriétaires avec le plus d'animaux")
  /\ findOldest (Throw (QueryFailedError cause))
     = Throw (QueryFailedError cause).
Proof.
  intros Hko.
  unfold PersonService_update, AnimalService_findOne, try_catch_async,
    bind_async, personRepository_findOneBy, animalRepository_findOneBy, query.
  rewrite Hko. repeat split.
Qed.

(** ** The queries at the sample records *)

Example findOldest_sample :
  findOldest (Normal [rex; felix; medor]) = Normal [rex; felix].
Proof. reflexivity. Qed.

Example findHeaviestAnimal_sample :
  findHeaviestAnimal (Normal sample_animals)
  = Normal (Some [ {| ha_animalId := 1; ha_name := "Rex";
                      ha_species := "Dog"; ha_weight := 30.5%Q;
                      ha_ownerFullName := "Alice Martin"; ha_ownerId := 1 |};
                   {| ha_animalId := 3; ha_name := "Medor";
                      ha_species := "dog"; ha_weight := 30.5%Q;
                      ha_ownerFullName := "Bob Durand"; ha_ownerId := 2 |} ]).
Proof. reflexivity. Qed.

Example findTopOwners_sample :
  findTopOwners (Normal sample_persons)
  = Normal [ {| ownerId := 1; fullName := "Alice Martin"; count := 2 |} ].
Proof. reflexivity. Qed.

Example findTopOwnersBySpecies_sample :
  findTopOwnersBySpecies "DOG" (Normal sample_persons)
  = Normal [ {| ownerId := 1; fullName := "Alice Martin"; count := 1 |};
             {| ownerId := 2; fullName := "Bob Durand"; count := 1 |} ]
  /\ findTopOwnersBySpecies "bird" (Normal sample_persons) = Normal []
  /\ findTopOwnersBySpecies "  " (Normal sample_persons)
     = Throw (BadRequestException "Le champ 'species' ne peut pas être vide.").
Proof. repeat split. Qed.

Example findHeaviestGroups_sample :
  findHeaviestGroups (Normal sample_persons)
  = Normal [ {| hg_ownerId := 1; hg_fullName := "Alice Martin";
                totalWeight := (0 + 30.5 + 4)%Q |} ].
Proof. reflexivity. Qed.

Example Engine_sample :
  Engine.findTopOwnersBySpecies 2 "DOG" (Normal sample_persons)
  = Normal [ {| ownerId := 1; fullName := "Alice Martin"; count := 1 |};
             {| ownerId := 2; fullName := "Bob Durand"; count := 1 |} ]
  /\ Engine.findTopOwnersBySpecies 1 "DOG" (Normal sample_persons)
     = Throw (InternalServerErrorException
                "Erreur lors de la recherche des propriétaires pour l'espèce spécifiée")
  /\ Engine.findHeaviestGroups 2 Qplus (Normal sample_persons)
     = findHeaviestGroups (Normal sample_persons).
Proof. repeat split. Qed.

Example page_without_limit :
  findAllAnimals (Value 0%Z) (Value 0%Z) Undefined (Normal sample_animals)
  = Normal (sample_animals, 3%Z)
  /\ findAllAnimals (Value 1%Z) (Value 0%Z) Undefined (Normal sample_animals)
     = Throw (InternalServerErrorException
                "Erreur lors de la récupération paginée des animaux").
Proof. split; reflexivity. Qed.

Example AnimalService_update_sample :
  exists db',
    AnimalService_update 1 (only_ownerId 2) sample_db
    = (Normal {| animal := rex; owner := Some bob |}, db')
    /\ map owner_id (animal_table db') = [Some 2%Z; Some 1%Z; Some 2%Z].
Proof. eexists. split; reflexivity. Qed.

(* ================================================================== *)
(** * Further properties of the services *)
(* ================================================================== *)

(** ** The failure kinds that leave the methods *)

Lemma guard_not_found {A} (body : Async A) (message : string)
  (db : Database) :
  not_found_or_internal
    (fst (try_catch_async body
            (fun error =>
               if instanceof_NotFoundException error then throw error
               else throw (InternalServerErrorException message)) db)).
Proof.
  unfold try_catch_async. destruct (body db) as [[a|e] db']; [exact I|].
  destruct e; exact I.
Qed.

Lemma guard_internal {A} (body : Completion A) (message : string) :
  internal_only
    (try_catch body
       (fun error => Throw (InternalServerErrorException message))).
Proof. destruct body; exact I. Qed.

(** X1. Whatever the database holds or throws, the guarded methods that
    look a record up complete normally, or throw the not-found or the
    internal exception, and nothing else. *)
Theorem lookups_throw_not_found_or_internal
  (fetch : string -> Completion Response) (id : Z)
  (created_from : CreateAnimalInput) (changes : UpdateAnimalInput)
  (db : Database) :
  not_found_or_internal (fst (AnimalService_findOne id db))
  /\ not_found_or_internal (fst (findOneWithOwner fetch id db))
  /\ not_found_or_internal (fst (AnimalService_create created_from db))
  /\ not_found_or_internal (fst (AnimalService_update id changes db))
  /\ not_found_or_internal (fst (AnimalService_remove id db))
  /\ not_found_or_internal (fst (PersonService_findOne id db))
  /\ not_found_or_internal (fst (findOneWithAnimals id db))
  /\ not_found_or_internal (fst (PersonService_remove id db))
  /\ not_found_or_internal (fst (removeWithAnimals id db)).
Proof. repeat split; apply guard_not_found. Qed.

(** X2. Whatever the repository answers, the aggregate queries and the
    paged lists complete normally or throw the internal exception;
    [findTopOwnersBySpecies] can also throw the bad-request exception. *)
Theorem aggregates_throw_internal_only
  (fetch : string -> Completion Response)
  (found_animals : Completion (list Animal.t))
  (found_owned : Completion (list AnimalWithOwner))
  (found_persons : Completion (list PersonWithAnimals))
  (start limit : arg Z) (start' limit' : Z) (species : arg string)
  (wanted : string) :
  internal_only (findMostCommonSpecies fetch found_animals)
  /\ internal_only (findHeaviestAnimal found_owned)
  /\ internal_only (findTopOwners found_persons)
  /\ internal_only (findHeaviestGroups found_persons)
  /\ internal_only (AnimalService_findAll start limit species found_owned)
  /\ internal_only (PersonService_findAll start' limit' found_persons)
  /\ bad_request_or_internal (findTopOwnersBySpecies wanted found_persons).
Proof.
  repeat split; try apply guard_internal.
  unfold findTopOwnersBySpecies, try_catch.
  destruct (blank wanted); [exact I|].
  destruct found_persons as [persons|e]; [exact I|].
  cbn [bind]. destruct e; exact I.
Qed.

(** ** What the methods that write do, step by step *)

Lemma create_run (data : CreateAnimalInput) (db : Database) :
  out_of_order db = None ->
  AnimalService_create data db
  = match find_person (ca_ownerId data) db with
    | None =>
        (Throw (NotFoundException
                  ("Propriétaire avec l'id " ++ toString (ca_ownerId data)
                   ++ " non trouvé")), db)
    | Some o =>
        (Normal {| animal := created db data; owner := Some o |},
         inserted db data o)
    end.
Proof.
  intros Hok.
  unfold AnimalService_create, try_catch_async, bind_async,
    personRepository_findOneBy, animalRepository_save_created, query,
    inserted, created.
  rewrite Hok. destruct (find_person _ db) as [o|]; [|reflexivity].
  cbn. rewrite Hok. reflexivity.
Qed.

Lemma update_run (id : Z) (data : UpdateAnimalInput) (db : Database) :
  out_of_order db = None ->
  AnimalService_update id data db
  = match find_animal_row id db with
    | None =>
        (Throw (NotFoundException
                  ("Animal avec l'id " ++ toString id ++ " non trouvé")), db)
    | Some r =>
        match truthy_id (ua_ownerId data) with
        | Some ownerId =>
            match find_person ownerId db with
            | None =>
                (Throw (NotFoundException
                          ("Propriétaire avec l'id " ++ toString ownerId
                           ++ " non trouvé")), db)
            | Some _ => (Normal (updated db r data), saved db (updated db r data))
            end
        | None => (Normal (updated db r data), saved db (updated db r data))
        end
    end.
Proof.
  intros Hok.
  unfold AnimalService_update, try_catch_async, bind_async,
    animalRepository_findOne_owner, personRepository_findOneBy,
    animalRepository_save, query, updated, saved.
  rewrite Hok. destruct (find_animal_row id db) as [r|]; [|reflexivity].
  cbn. destruct (truthy_id (ua_ownerId data)) as [ownerId|].
  - rewrite Hok. destruct (find_person ownerId db) as [o|]; [|reflexivity].
    cbn. rewrite Hok. reflexivity.
  - cbn. rewrite Hok. reflexivity.
Qed.

Lemma remove_run (id : Z) (db : Database) :
  out_of_order db = None ->
  AnimalService_remove id db
  = match find_animal_row id db with
    | None =>
        (Throw (NotFoundException
                  ("Animal avec l'id " ++ toString id ++ " non trouvé")), db)
    | Some _ =>
        (Normal (Z.ltb 0 (length_of (animal_table db)
                          - length_of (animal_table (without_animal db id)))),
         without_animal db id)
    end.
Proof.
  intros Hok.
  unfold AnimalService_remove, try_catch_async, bind_async,
    animalRepository_findOneBy, animalRepository_delete, query,
    without_animal.
  rewrite Hok. destruct (find_animal_row id db) as [r|]; [|reflexivity].
  cbn. rewrite Hok. reflexivity.
Qed.

Lemma PersonService_update_run (id : Z) (data : UpdatePersonInput)
  (db : Database) :
  out_of_order db = None ->
  PersonService_update id data db
  = match find_person id db with
    | None =>
        (Throw (InternalServerErrorException
                  "Une erreur est survenue lors de la mise à jour"), db)
    | Some p =>
        (Normal (assign_person p data), person_saved db (assign_person p data))
    end.
Proof.
  intros Hok.
  unfold PersonService_update, try_catch_async, bind_async,
    personRepository_findOneBy, personRepository_save, query, person_saved.
  rewrite Hok. destruct (find_person id db) as [p|]; [|reflexivity].
  cbn. rewrite Hok. reflexivity.
Qed.

Lemma PersonService_remove_run (id : Z) (db : Database) :
  out_of_order db = None ->
  PersonService_remove id db
  = match find_person id db with
    | None =>
        (Throw (NotFoundException
                  ("Personne avec l'id " ++ toString id ++ " non trouvée")),
         db)
    | Some _ =>
        if existsb (owned_by id) (animal_table db)
        then (Throw (InternalServerErrorException
                       "Erreur lors de la suppression de la personne"), db)
        else
          (Normal (Z.ltb 0 (length_of (person_table db)
                            - length_of (person_table (without_person db id)))),
           without_person db id)
    end.
Proof.
  intros Hok.
  unfold PersonService_remove, try_catch_async, bind_async,
    personRepository_findOneBy, personRepository_delete, query,
    without_person.
  rewrite Hok. destruct (find_person id db) as [p|] eqn:Hp; [|reflexivity].
  cbn. rewrite Hok, Hp.
  destruct (existsb (owned_by id) (animal_table db)); reflexivity.
Qed.

Lemma existsb_owned_by_without (id : Z) (rows : list AnimalRow) :
  existsb (owned_by id) (filter (fun r => negb (owned_by id r)) rows) = false.
Proof.
  induction rows as [|r rows IH]; simpl; trivial.
  destruct (owned_by id r) eqn:E; simpl; trivial. now rewrite E.
Qed.

Lemma removeWithAnimals_run (id : Z) (db : Database) :
  out_of_order db = None ->
  removeWithAnimals id db
  = match find_person id db with
    | None =>
        (Throw (NotFoundException
                  ("Personne avec l'id " ++ toString id ++ " non trouvée")),
         db)
    | Some _ =>
        (Normal (Z.ltb 0 (length_of (person_table db)
                          - length_of (person_table (without_person db id)))),
         without_person (without_animals_of db id) id)
    end.
Proof.
  intros Hok.
  unfold removeWithAnimals, try_catch_async, bind_async,
    personRepository_findOneBy, personRepository_delete,
    animalRepository_delete_owner, query, without_person, without_animals_of.
  rewrite Hok. destruct (find_person id db) as [p|] eqn:Hp; [|reflexivity].
  cbn. rewrite Hok. cbn. unfold find_person in *. cbn. rewrite Hp.
  rewrite existsb_owned_by_without. reflexivity.
Qed.

Lemma AnimalService_findOne_run (id : Z) (db : Database) :
  out_of_order db = None ->
  AnimalService_findOne id db
  = match find_animal_row id db with
    | None =>
        (Throw (NotFoundException
                  ("Personne avec l'id " ++ toString id ++ " non trouvée")),
         db)
    | Some r => (Normal (columns r), db)
    end.
Proof.
  intros Hok.
  unfold AnimalService_findOne, try_catch_async, bind_async,
    animalRepository_findOneBy, query.
  rewrite Hok. now destruct (find_animal_row id db).
Qed.

Lemma PersonService_findOne_run (id : Z) (db : Database) :
  out_of_order db = None ->
  PersonService_findOne id db
  = match find_person id db with
    | None =>
        (Throw (NotFoundException
                  ("Personne avec l'id " ++ toString id ++ " non trouvée")),
         db)
    | Some p => (Normal p, db)
    end.
Proof.
  intros Hok.
  unfold PersonService_findOne, try_catch_async, bind_async,
    personRepository_findOneBy, query.
  rewrite Hok. now destruct (find_person id db).
Qed.

Lemma findOneWithAnimals_run (id : Z) (db : Database) :
  out_of_order db = None ->
  findOneWithAnimals id db
  = match find_person id db with
    | None =>
        (Throw (NotFoundException
                  ("Personne avec l'id " ++ toString id ++ " non trouvée")),
         db)
    | Some p =>
        (Normal {| person := p; animals := animals_of db (Person.id p) |}, db)
    end.
Proof.
  intros Hok.
  unfold findOneWithAnimals, try_catch_async, bind_async,
    personRepository_findOne_animals, query.
  rewrite Hok. now destruct (find_person id db).
Qed.

(** While the database is out of order, the methods that write throw and
    leave it as it is. *)
Lemma out_of_order_writes (e : Exception) (id : Z)
  (created_from : CreateAnimalInput) (changes : UpdateAnimalInput)
  (person_changes : UpdatePersonInput) (db : Database) :
  out_of_order db = Some e ->
  (exists e', AnimalService_create created_from db = (Throw e', db))
  /\ (exists e', AnimalService_update id changes db = (Throw e', db))
  /\ (exists e', AnimalService_remove id db = (Throw e', db))
  /\ (exists e', PersonService_update id person_changes db = (Throw e', db))
  /\ (exists e', PersonService_remove id db = (Throw e', db))
  /\ (exists e', removeWithAnimals id db = (Throw e', db)).
Proof.
  intros Hko.
  unfold AnimalService_create, AnimalService_update, AnimalService_remove,
    PersonService_update, PersonService_remove, removeWithAnimals,
    try_catch_async, bind_async, personRepository_findOneBy,
    animalRepository_findOneBy, animalRepository_findOne_owner, query, throw.
  rewrite Hko.
  repeat split; destruct (instanceof_NotFoundException e); eauto.
Qed.

(** ** Rows found before and after a write *)

Lemma find_other_after_map {A} (key : A -> Z) (id id' : Z) (new : A -> A)
  (rows : list A) :
  id' <> id ->
  (forall r, key r = id -> key (new r) = id) ->
  find (fun r => Z.eqb (key r) id')
       (map (fun r => if Z.eqb (key r) id then new r else r) rows)
  = find (fun r => Z.eqb (key r) id') rows.
Proof.
  intros Hne Hkey. induction rows as [|x rows IH]; simpl; trivial.
  destruct (Z.eqb_spec (key x) id) as [E|E].
  - rewrite (Hkey x E), <- E at 1.
    destruct (Z.eqb_spec (key x) id') as [E'|_]; [congruence|].
    destruct (Z.eqb_spec id id') as [E'|_]; [congruence|]. exact IH.
  - destruct (Z.eqb (key x) id'); [reflexivity|exact IH].
Qed.

Lemma find_same_after_map {A} (key : A -> Z) (id : Z) (new : A -> A)
  (rows : list A) (r : A) :
  (forall r, key r = id -> key (new r) = id) ->
  find (fun r => Z.eqb (key r) id) rows = Some r ->
  find (fun r => Z.eqb (key r) id)
       (map (fun r => if Z.eqb (key r) id then new r else r) rows)
  = Some (new r).
Proof.
  intros Hkey. induction rows as [|x rows IH]; simpl; [discriminate|].
  destruct (Z.eqb_spec (key x) id) as [E|E].
  - intros [= <-]. rewrite (Hkey x E), Z.eqb_refl. reflexivity.
  - destruct (Z.eqb_spec (key x) id); [contradiction|]. exact IH.
Qed.

Lemma find_after_filter_other {A} (key : A -> Z) (id id' : Z)
  (rows : list A) :
  id' <> id ->
  find (fun r => Z.eqb (key r) id')
       (filter (fun r => negb (Z.eqb (key r) id)) rows)
  = find (fun r => Z.eqb (key r) id') rows.
Proof.
  intros Hne. induction rows as [|x rows IH]; simpl; trivial.
  destruct (Z.eqb_spec (key x) id) as [E|E]; simpl.
  - destruct (Z.eqb_spec (key x) id'); [congruence|exact IH].
  - destruct (Z.eqb (key x) id'); [reflexivity|exact IH].
Qed.

Lemma find_after_filter_same {A} (key : A -> Z) (id : Z) (rows : list A) :
  find (fun r => Z.eqb (key r) id)
       (filter (fun r => negb (Z.eqb (key r) id)) rows)
  = None.
Proof.
  induction rows as [|x rows IH]; simpl; trivial.
  destruct (Z.eqb (key x) id) eqn:E; simpl; trivial. now rewrite E.
Qed.

Lemma filter_shorter {A} (keep : A -> bool) (rows : list A) (r : A) :
  In r rows -> keep r = false ->
  (0 <? length_of rows - length_of (filter keep rows))%Z = true.
Proof.
  intros Hin Hr. apply Z.ltb_lt. unfold length_of.
  enough (List.length (filter keep rows) < List.length rows)%nat by lia.
  induction rows as [|x rows IH]; [contradiction|]. simpl.
  pose proof (filter_length_le keep rows) as Hle.
  destruct Hin as [->|Hin].
  - rewrite Hr. lia.
  - destruct (keep x); simpl; [|lia]. apply IH in Hin. lia.
Qed.

(** ** The methods that write *)

(** X3. A method that writes and throws has written nothing: the
    database is as it was. *)
Theorem failed_write_changes_nothing (id : Z)
  (created_from : CreateAnimalInput) (changes : UpdateAnimalInput)
  (person_changes : UpdatePersonInput) (db : Database) :
  unchanged_on_throw db (AnimalService_create created_from db)
  /\ unchanged_on_throw db (AnimalService_update id changes db)
  /\ unchanged_on_throw db (AnimalService_remove id db)
  /\ unchanged_on_throw db (PersonService_update id person_changes db)
  /\ unchanged_on_throw db (PersonService_remove id db).
Proof.
  destruct (out_of_order db) as [e|] eqn:Hstate.
  - destruct (@out_of_order_writes e id created_from changes person_changes
                db Hstate)
      as ([? ->] & [? ->] & [? ->] & [? ->] & [? ->] & _).
    repeat split.
  - rewrite create_run, update_run, remove_run, PersonService_update_run,
      PersonService_remove_run by trivial.
    unfold unchanged_on_throw. repeat split.
    + now destruct (find_person _ db).
    + destruct (find_animal_row id db); [|reflexivity].
      destruct (truthy_id _); [|exact I]. now destruct (find_person _ db).
    + now destruct (find_animal_row id db).
    + now destruct (find_person id db).
    + destruct (find_person id db); [|reflexivity].
      now destruct (existsb _ _).
Qed.

Lemma find_appended {A} (test : A -> bool) (rows : list A) (x : A) :
  find test (rows ++ [x])
  = match find test rows with
    | Some r => Some r
    | None => if test x then Some x else None
    end.
Proof.
  induction rows as [|y rows IH]; simpl; [reflexivity|].
  destruct (test y); [reflexivity|exact IH].
Qed.

Lemma find_below_next (db : Database) :
  ids_below_next db -> find_animal_row (next_animal_id db) db = None.
Proof.
  intros Hids. unfold find_animal_row.
  destruct (find _ (animal_table db)) as [r|] eqn:E; [|reflexivity].
  apply find_some in E as [Hin Hid]. apply Z.eqb_eq in Hid.
  apply Hids in Hin. lia.
Qed.

(** X4. Creating an animal for an existing owner, in a database whose
    animal ids are all below the next generated id: the animal gets that
    id and the fields of the input, [findOne] then finds it,
    [findOneWithAnimals] of the owner lists it last, every animal found
    before is still found, the persons are untouched and the ids stay
    below the next one. *)
Theorem create_then_find (data : CreateAnimalInput) (db : Database)
  (o : Person.t) :
  out_of_order db = None ->
  find_person (ca_ownerId data) db = Some o ->
  ids_below_next db ->
  exists db',
    AnimalService_create data db
    = (Normal {| animal := created db data; owner := Some o |}, db')
    /\ AnimalService_findOne (next_animal_id db) db'
       = (Normal (created db data), db')
    /\ findOneWithAnimals (ca_ownerId data) db'
       = (Normal {| person := o;
                    animals :=
                      (animals_of db (ca_ownerId data) ++ [created db data])%list
                 |}, db')
    /\ (forall id r, find_animal_row id db = Some r ->
                     find_animal_row id db' = Some r)
    /\ person_table db' = person_table db
    /\ ids_below_next db'.
Proof.
  intros Hok Ho Hids. exists (inserted db data o).
  assert (Hid : Person.id o = ca_ownerId data) by now apply find_person_id in Ho.
  rewrite create_run, Ho by trivial. split; [reflexivity|].
  rewrite AnimalService_findOne_run, findOneWithAnimals_run by trivial.
  unfold find_animal_row, find_person, animals_of. cbn [inserted animal_table
    person_table next_animal_id].
  fold (find_person (ca_ownerId data) db). rewrite Ho.
  rewrite find_appended. fold (find_animal_row (next_animal_id db) db).
  rewrite find_below_next by trivial. cbn [columns created Animal.id].
  rewrite Z.eqb_refl. split; [reflexivity|]. split.
  - rewrite filter_app, map_app. cbn. unfold owned_by at 2. cbn.
    rewrite Hid, Z.eqb_refl. reflexivity.
  - split; [|split; [reflexivity|]].
    + intros id r Hr. rewrite find_appended. now rewrite Hr.
    + intros r Hin. cbn in Hin |- *. apply in_app_or in Hin as [Hin|[<-|[]]].
      * apply Hids in Hin. lia.
      * cbn. lia.
Qed.

(** X5. An update that succeeds keeps the id of the animal and assigns
    exactly the fields present in the input, the absent ones keeping the
    stored value; [findOne] then returns the updated animal; the animals
    of other ids, the persons and the number of rows are as before. *)
Theorem update_assigns_present_fields (id : Z) (data : UpdateAnimalInput)
  (db db' : Database) (a : AnimalWithOwner) :
  AnimalService_update id data db = (Normal a, db') ->
  exists r,
    find_animal_row id db = Some r
    /\ Animal.id a = id
    /\ Animal.name a = assigned (ua_name data) (Animal.name (columns r))
    /\ Animal.dateOfBirth a
       = assigned (ua_dateOfBirth data) (Animal.dateOfBirth (columns r))
    /\ Animal.species a
       = assigned (ua_species data) (Animal.species (columns r))
    /\ Animal.breed a = assigned (ua_breed data) (Animal.breed (columns r))
    /\ Animal.color a = assigned (ua_color data) (Animal.color (columns r))
    /\ Animal.weight a = assigned (ua_weight data) (Animal.weight (columns r))
    /\ AnimalService_findOne id db' = (Normal (animal a), db')
    /\ (forall id', id' <> id ->
                    find_animal_row id' db' = find_animal_row id' db)
    /\ person_table db' = person_table db
    /\ List.length (animal_table db') = List.length (animal_table db).
Proof.
  intros Hrun.
  destruct (out_of_order db) as [e|] eqn:Hok.
  { destruct (@out_of_order_writes e id
                {| ca_name := ""; ca_dateOfBirth := 0%Z; ca_species := "";
                   ca_breed := ""; ca_color := ""; ca_weight := 0%Q;
                   ca_ownerId := 0%Z |} data no_change db Hok)
      as (_ & [e' He'] & _).
    congruence. }
  rewrite update_run in Hrun by trivial.
  destruct (find_animal_row id db) as [r|] eqn:Hrow; [|discriminate].
  pose proof (find_animal_row_id _ _ Hrow) as Hid.
  assert (Hsaved : a = updated db r data /\ db' = saved db (updated db r data)).
  { destruct (truthy_id (ua_ownerId data)).
    - destruct (find_person z db); [|discriminate].
      now injection Hrun as <- <-.
    - now injection Hrun as <- <-. }
  destruct Hsaved as [-> ->]. exists r.
  assert (Hcols : animal (updated db r data)
                  = animal (assign_animal (with_owner db r) data)).
  { unfold updated. now destruct (truthy_id _). }
  assert (Hkey : Animal.id (updated db r data) = id) by now rewrite Hcols.
  split; [reflexivity|].
  do 7 (split; [rewrite Hcols; solve [exact Hid | reflexivity]|]).
  split; [|split; [|split]].
  - rewrite AnimalService_findOne_run by trivial.
    unfold find_animal_row, saved. cbn [animal_table]. rewrite Hkey.
    rewrite (@find_same_after_map AnimalRow
               (fun r => Animal.id (columns r)) id
               (fun _ => {| columns := updated db r data;
                            owner_id :=
                              option_map Person.id
                                (owner (updated db r data)) |})
               (animal_table db) r); trivial.
  - intros id' Hne. unfold find_animal_row, saved. cbn [animal_table].
    rewrite Hkey.
    apply (@find_other_after_map AnimalRow
             (fun r => Animal.id (columns r)) id id'
             (fun _ => {| columns := updated db r data;
                          owner_id :=
                            option_map Person.id
                              (owner (updated db r data)) |})
             (animal_table db)); trivial.
  - reflexivity.
  - cbn. apply length_map.
Qed.

(** X6. Removing an animal that exists returns [true]; afterwards
    [findOne] and a second [remove] of the same id throw the not-found
    exception, while the animals of other ids and the persons are as
    before. *)
Theorem remove_then_find (id : Z) (db : Database) (r : AnimalRow) :
  out_of_order db = None ->
  find_animal_row id db = Some r ->
  exists db',
    AnimalService_remove id db = (Normal true, db')
    /\ AnimalService_findOne id db'
       = (Throw (NotFoundException
                   ("Personne avec l'id " ++ toString id ++ " non trouvée")),
          db')
    /\ AnimalService_remove id db'
       = (Throw (NotFoundException
                   ("Animal avec l'id " ++ toString id ++ " non trouvé")),
          db')
    /\ (forall id', id' <> id ->
                    find_animal_row id' db' = find_animal_row id' db)
    /\ person_table db' = person_table db.
Proof.
  intros Hok Hrow. exists (without_animal db id).
  assert (Hgone : find_animal_row id (without_animal db id) = None).
  { apply (find_after_filter_same (fun r => Animal.id (columns r))). }
  rewrite remove_run, Hrow by trivial.
  rewrite AnimalService_findOne_run, remove_run, Hgone by trivial.
  split; [|repeat split].
  - f_equal. f_equal. unfold find_animal_row in Hrow.
    apply find_some in Hrow as [Hin Hid].
    apply (filter_shorter _ _ _ Hin). now rewrite Hid.
  - intros id' Hne.
    now apply (find_after_filter_other (fun r => Animal.id (columns r))).
Qed.

(** X7. Updating a person that exists assigns the fields present in the
    input and keeps the others and the id; [findOne] then returns the
    updated person; the persons of other ids and the animals are as
    before. *)
Theorem PersonService_update_then_find (id : Z) (data : UpdatePersonInput)
  (db : Database) (p : Person.t) :
  out_of_order db = None ->
  find_person id db = Some p ->
  exists db',
    PersonService_update id data db = (Normal (assign_person p data), db')
    /\ Person.id (assign_person p data) = id
    /\ Person.lastName (assign_person p data)
       = assigned (up_lastName data) (Person.lastName p)
    /\ Person.firstName (assign_person p data)
       = assigned (up_firstName data) (Person.firstName p)
    /\ Person.email (assign_person p data)
       = assigned (up_email data) (Person.email p)
    /\ Person.phoneNumber (assign_person p data)
       = assigned (up_phoneNumber data) (Person.phoneNumber p)
    /\ PersonService_findOne id db' = (Normal (assign_person p data), db')
    /\ (forall id', id' <> id -> find_person id' db' = find_person id' db)
    /\ animal_table db' = animal_table db.
Proof.
  intros Hok Hp. exists (person_saved db (assign_person p data)).
  pose proof (find_person_id _ _ Hp) as Hid.
  rewrite PersonService_update_run, Hp by trivial.
  rewrite PersonService_findOne_run by trivial.
  do 6 (split; [solve [reflexivity | exact Hid]|]).
  unfold find_person, person_saved. cbn [person_table assign_person Person.id].
  rewrite Hid. split; [|split; [|reflexivity]].
  - rewrite (@find_same_after_map Person.t Person.id id
               (fun _ => assign_person p data) (person_table db) p); trivial.
  - intros id' Hne.
    now apply (@find_other_after_map Person.t Person.id id id'
                 (fun _ => assign_person p data) (person_table db)).
Qed.

Lemma filter_owned_by_without (id id' : Z) (rows : list AnimalRow) :
  id' <> id ->
  filter (owned_by id') (filter (fun r => negb (owned_by id r)) rows)
  = filter (owned_by id') rows.
Proof.
  intros Hne. induction rows as [|r rows IH]; simpl; trivial.
  destruct (owned_by id r) eqn:E; simpl.
  - rewrite IH. unfold owned_by in *.
    destruct (owner_id r) as [o|]; [|reflexivity].
    apply Z.eqb_eq in E. subst o.
    destruct (Z.eqb_spec id id'); [congruence|reflexivity].
  - now rewrite IH.
Qed.

(** X8. Removing a person with their animals returns [true]: the person
    is no longer found, the animal table is the former one without the
    rows of that owner, so that the person has no animal left, and the
    other persons keep their record and their animals. *)
Theorem removeWithAnimals_removes_both (id : Z) (db : Database)
  (p : Person.t) :
  out_of_order db = None ->
  find_person id db = Some p ->
  exists db',
    removeWithAnimals id db = (Normal true, db')
    /\ find_person id db' = None
    /\ animal_table db'
       = filter (fun r => negb (owned_by id r)) (animal_table db)
    /\ animals_of db' id = []
    /\ (forall id', id' <> id ->
          find_person id' db' = find_person id' db
          /\ animals_of db' id' = animals_of db id').
Proof.
  intros Hok Hp. exists (without_person (without_animals_of db id) id).
  rewrite removeWithAnimals_run, Hp by trivial.
  split; [|split; [|split; [reflexivity|split]]].
  - f_equal. f_equal. unfold find_person in Hp.
    apply find_some in Hp as [Hin Hid].
    apply (filter_shorter _ _ _ Hin). now rewrite Hid.
  - apply (find_after_filter_same Person.id).
  - unfold animals_of. cbn.
    rewrite (filter_none (owned_by id)); [reflexivity|].
    intros r Hr. apply filter_In in Hr as [_ Hr].
    now apply negb_true_iff in Hr.
  - intros id' Hne. split.
    + now apply (find_after_filter_other Person.id).
    + unfold animals_of. cbn. now rewrite filter_owned_by_without.
Qed.

(** X9. Removing a person to whom no animal refers returns [true]: the
    person is no longer found, the other persons are, and the animals are
    untouched. *)
Theorem PersonService_remove_without_animals (id : Z) (db : Database)
  (p : Person.t) :
  out_of_order db = None ->
  find_person id db = Some p ->
  animals_of db id = [] ->
  exists db',
    PersonService_remove id db = (Normal true, db')
    /\ find_person id db' = None
    /\ animal_table db' = animal_table db
    /\ forall id', id' <> id -> find_person id' db' = find_person id' db.
Proof.
  intros Hok Hp Hnone. rewrite PersonService_remove_run, Hp by trivial.
  unfold animals_of in Hnone. apply map_eq_nil in Hnone.
  assert (Hex : existsb (owned_by id) (animal_table db) = false).
  { destruct (existsb _ _) eqn:E; [|reflexivity].
    apply existsb_exists in E as (r & Hin & Hr).
    assert (In r (filter (owned_by id) (animal_table db)))
      by now apply filter_In.
    rewrite Hnone in *. contradiction. }
  rewrite Hex. exists (without_person db id).
  split; [|split; [|split; [reflexivity|]]].
  - f_equal. f_equal. unfold find_person in Hp.
    apply find_some in Hp as [Hin Hid].
    apply (filter_shorter _ _ _ Hin). now rewrite Hid.
  - apply (find_after_filter_same Person.id).
  - intros id' Hne. now apply (find_after_filter_other Person.id).
Qed.

(** X24. Removing, without their animals, a person to whom an animal
    still refers: the foreign key of the animal table makes the deletion
    fail, the method throws the internal exception and nothing is
    deleted. *)
Theorem PersonService_remove_refused (id : Z) (db : Database) (p : Person.t) :
  out_of_order db = None ->
  find_person id db = Some p ->
  animals_of db id <> [] ->
  PersonService_remove id db
  = (Throw (InternalServerErrorException
              "Erreur lors de la suppression de la personne"), db).
Proof.
  intros Hok Hp Hsome. rewrite PersonService_remove_run, Hp by trivial.
  unfold animals_of in Hsome.
  assert (Hex : existsb (owned_by id) (animal_table db) = true).
  { destruct (filter (owned_by id) (animal_table db)) as [|r rows] eqn:E;
      [contradiction|].
    assert (Hin : In r (filter (owned_by id) (animal_table db)))
      by (rewrite E; now left).
    apply filter_In in Hin. apply existsb_exists. now exists r. }
  now rewrite Hex.
Qed.

(** X10. Moving an animal to another existing owner shows in the
    owners' lists: [findOneWithAnimals] of the new owner lists the
    updated animal, and no other owner's list holds an animal of that
    id. *)
Theorem update_moves_animal (id ownerId : Z) (data : UpdateAnimalInput)
  (db : Database) (r : AnimalRow) (o : Person.t) :
  out_of_order db = None ->
  find_animal_row id db = Some r ->
  ua_ownerId data = Some ownerId ->
  ownerId <> 0%Z ->
  find_person ownerId db = Some o ->
  exists a db',
    AnimalService_update id data db = (Normal a, db')
    /\ findOneWithAnimals ownerId db'
       = (Normal {| person := o; animals := animals_of db' ownerId |}, db')
    /\ In (animal a) (animals_of db' ownerId)
    /\ (forall other x, other <> ownerId ->
                        In x (animals_of db' other) -> Animal.id x <> id).
Proof.
  intros Hok Hrow Hdata Hnz Ho.
  pose proof (find_person_id _ _ Ho) as Hoid.
  pose proof (find_animal_row_id _ _ Hrow) as Hid.
  assert (Htruthy : truthy_id (ua_ownerId data) = Some ownerId).
  { rewrite Hdata. unfold truthy_id.
    destruct (Z.eqb_spec ownerId 0); [contradiction|reflexivity]. }
  exists (updated db r data), (saved db (updated db r data)).
  rewrite update_run, Hrow, Htruthy, Ho by trivial.
  assert (Hupd : updated db r data
                 = assign_animal {| animal := with_owner db r;
                                    owner := Some o |} data).
  { unfold updated. now rewrite Htruthy, Ho. }
  assert (Hkey : Animal.id (updated db r data) = id) by now rewrite Hupd.
  assert (Hown : option_map Person.id (owner (updated db r data))
                 = Some ownerId).
  { rewrite Hupd. cbn. now rewrite Hoid. }
  split; [reflexivity|].
  rewrite findOneWithAnimals_run by trivial.
  unfold find_person. cbn [saved person_table].
  fold (find_person ownerId db). rewrite Ho, Hoid.
  split; [reflexivity|].
  unfold animals_of, saved. cbn [animal_table]. rewrite Hkey, Hown.
  unfold find_animal_row in Hrow. apply find_some in Hrow as [Hin _].
  split.
  - apply in_map_iff.
    exists {| columns := updated db r data; owner_id := Some ownerId |}.
    split; [reflexivity|]. apply filter_In. split.
    + apply in_map_iff. exists r. split; [|exact Hin].
      now rewrite Hid, Z.eqb_refl.
    + unfold owned_by. cbn. apply Z.eqb_refl.
  - intros other x Hne Hx Hxid.
    apply in_map_iff in Hx as (row & <- & Hrow').
    apply filter_In in Hrow' as [Hrow' Howned].
    apply in_map_iff in Hrow' as (old & Hold & _).
    destruct (Z.eqb_spec (Animal.id (columns old)) id) as [E|E].
    + subst row. unfold owned_by in Howned. cbn in Howned.
      apply Z.eqb_eq in Howned. congruence.
    + subst row. contradiction.
Qed.

(** ** The translation helper *)

(** X11. [translate] never throws.  Its result is empty exactly when the
    text is empty, and it is either the text itself or the
    [translatedText] that the response to the English-to-French request
    for that text carries. *)
Theorem translate_result (fetch : string -> Completion Response)
  (text : string) :
  exists s,
    translate fetch text = Normal s
    /\ (s = "" <-> text = "")
    /\ (s = text
        \/ exists response data fields,
             fetch (request_url text "fr" "en") = Normal response
             /\ json response = Normal (Some data)
             /\ responseData data = Some fields
             /\ translatedText fields = Some s).
Proof.
  unfold translate, translate_between.
  destruct (String.eqb_spec text "") as [->|Hne].
  { exists "". repeat split; trivial. now left. }
  destruct (fetch _) as [response|e] eqn:Hfetch; cbn [bind try_catch].
  2:{ exists text. repeat split; auto; congruence. }
  destruct (json response) as [data|e] eqn:Hjson; cbn [bind try_catch].
  2:{ exists text. repeat split; auto; congruence. }
  unfold translatedText_or.
  destruct data as [data|]; [|exists text; repeat split; auto; congruence].
  destruct (responseData data) as [fields|] eqn:Hdata;
    [|exists text; repeat split; auto; congruence].
  destruct (translatedText fields) as [t|] eqn:Ht;
    [|exists text; repeat split; auto; congruence].
  destruct (String.eqb_spec t "") as [->|Hnet];
    [exists text; repeat split; auto; congruence|].
  exists t. split; [reflexivity|]. split; [split; congruence|].
  right. exists response, data, fields. auto.
Qed.

(** ** Blank and case-insensitive species *)

Lemma is_white_space_character (c : ascii) :
  is_white_space c = white_space_character c.
Proof. destruct c as [[] [] [] [] [] [] [] []]; reflexivity. Qed.

Lemma only_white_space_cons (c : ascii) (s : string) :
  only_white_space (String c s)
  = andb (is_white_space c) (only_white_space s).
Proof. cbn [only_white_space]. now rewrite is_white_space_character. Qed.

Lemma trimStart_empty (s : string) :
  trimStart s = "" <-> only_white_space s = true.
Proof.
  induction s as [|c s IH]; [simpl; tauto|].
  rewrite only_white_space_cons. cbn [trimStart].
  destruct (is_white_space c); simpl; [exact IH|].
  split; discriminate.
Qed.

Lemma trimStart_only_white_space (s : string) :
  only_white_space (trimStart s) = true -> trimStart s = "".
Proof.
  induction s as [|c s IH]; cbn [trimStart]; trivial.
  destruct (is_white_space c) eqn:E; trivial.
  rewrite only_white_space_cons, E. discriminate.
Qed.

Lemma only_white_space_reverse_onto (s acc : string) :
  only_white_space (reverse_onto s acc)
  = andb (only_white_space s) (only_white_space acc).
Proof.
  revert acc. induction s as [|c s IH]; intros acc; cbn [reverse_onto];
    [reflexivity|].
  rewrite IH, !only_white_space_cons.
  now rewrite andb_assoc, (andb_comm (is_white_space c)).
Qed.

Lemma reverse_onto_empty (s acc : string) :
  reverse_onto s acc = "" -> s = "" /\ acc = "".
Proof.
  revert acc. induction s as [|c s IH]; intros acc; simpl; [tauto|].
  intros H. apply IH in H as [_ H]. discriminate.
Qed.

Lemma blank_only_white_space (s : string) : blank s = only_white_space s.
Proof.
  unfold blank. destruct (String.eqb_spec s "") as [->|_]; [reflexivity|].
  simpl. destruct (only_white_space s) eqn:E.
  - apply trimStart_empty in E. unfold trim. rewrite E. reflexivity.
  - destruct (String.eqb_spec (trim s) "") as [Ht|_]; [|reflexivity].
    unfold trim, trimEnd, reverse in Ht.
    apply reverse_onto_empty in Ht as [Ht _].
    apply trimStart_empty in Ht.
    rewrite only_white_space_reverse_onto, andb_true_r in Ht.
    apply trimStart_only_white_space, trimStart_empty in Ht. congruence.
Qed.

(** X12. For a species of ASCII text, [findTopOwnersBySpecies] throws
    the bad-request exception when the species is made of white space
    only (the empty string included), before the repository is consulted
    and whatever it would answer; for any other species of ASCII text and
    any list of owners that the engine accepts as arguments it returns
    normally. *)
Theorem findTopOwnersBySpecies_white_space (max_arguments : nat)
  (species : string) :
  ascii_only species = true ->
  (only_white_space species = true ->
   forall found,
     Engine.findTopOwnersBySpecies max_arguments species found
     = Throw (BadRequestException
                "Le champ 'species' ne peut pas être vide."))
  /\ (only_white_space species = false ->
      forall persons,
        (List.length persons <= max_arguments)%nat ->
        exists top,
          Engine.findTopOwnersBySpecies max_arguments species (Normal persons)
          = Normal top).
Proof.
  intros _. rewrite <- blank_only_white_space. split; intros H ?;
    unfold Engine.findTopOwnersBySpecies; rewrite H; [reflexivity|].
  intros Hfit. cbn [bind try_catch].
  rewrite Math_max_spread_within by now rewrite !length_map.
  cbn [bind try_catch]. eauto.
Qed.

Lemma lower_ascii_white_space (c : ascii) :
  is_white_space (lower_ascii c) = is_white_space c.
Proof. destruct c as [[] [] [] [] [] [] [] []]; reflexivity. Qed.

Lemma lower_ascii_idempotent (c : ascii) :
  lower_ascii (lower_ascii c) = lower_ascii c.
Proof. destruct c as [[] [] [] [] [] [] [] []]; reflexivity. Qed.

Lemma toLowerCase_idempotent (s : string) :
  toLowerCase (toLowerCase s) = toLowerCase s.
Proof.
  induction s as [|c s IH]; simpl; [reflexivity|].
  now rewrite lower_ascii_idempotent, IH.
Qed.

Lemma only_white_space_toLowerCase (s : string) :
  only_white_space (toLowerCase s) = only_white_space s.
Proof.
  induction s as [|c s IH]; [reflexivity|]. cbn [toLowerCase].
  now rewrite !only_white_space_cons, lower_ascii_white_space, IH.
Qed.

Lemma same_ignoring_case_lower (s : string) :
  same_ignoring_case (toLowerCase s) s = true.
Proof.
  rewrite <- same_ignoring_case_toLowerCase, toLowerCase_idempotent.
  apply String.eqb_refl.
Qed.

(** X13. On ASCII text (the species asked for and the species of the
    animals), [findTopOwnersBySpecies] does not see the case of its
    argument: two species that are the same when case is ignored give the
    same completion (the same owners and counts, or the same exception)
    whatever the repository answers, and so does a species and its
    lower-case form. *)
Theorem findTopOwnersBySpecies_ignores_case (max_arguments : nat)
  (species species' : string)
  (found : Completion (list PersonWithAnimals)) :
  ascii_only species = true ->
  ascii_only species' = true ->
  (forall persons, found = Normal persons -> ascii_species persons = true) ->
  (same_ignoring_case species species' = true ->
   Engine.findTopOwnersBySpecies max_arguments species found
   = Engine.findTopOwnersBySpecies max_arguments species' found)
  /\ Engine.findTopOwnersBySpecies max_arguments (toLowerCase species) found
     = Engine.findTopOwnersBySpecies max_arguments species found.
Proof.
  intros _ _ _.
  assert (Hsame : forall s s',
            same_ignoring_case s s' = true ->
            Engine.findTopOwnersBySpecies max_arguments s found
            = Engine.findTopOwnersBySpecies max_arguments s' found).
  { intros s s' H.
    rewrite <- same_ignoring_case_toLowerCase in H.
    apply String.eqb_eq in H.
    unfold Engine.findTopOwnersBySpecies.
    rewrite !blank_only_white_space.
    rewrite <- (only_white_space_toLowerCase s),
            <- (only_white_space_toLowerCase s'), H.
    reflexivity. }
  split; [apply Hsame|]. apply Hsame, same_ignoring_case_lower.
Qed.

(** ** The page of animals *)

Lemma page_in_rows {A} (skipped kept : nat) (rows : list A) (a : A) :
  In a (firstn kept (skipn skipped rows)) -> In a rows.
Proof.
  intros H. rewrite <- (firstn_skipn skipped rows). apply in_or_app. right.
  rewrite <- (firstn_skipn kept (skipn skipped rows)).
  apply in_or_app. now left.
Qed.

(** X14. With a start that is not negative and a limit above 0, the
    animals query returns a page of rows of the table, of at most [limit]
    rows and at most [totalCount] rows, [totalCount] being at most the
    size of the table; a start at or beyond [totalCount] gives the empty
    page with the same [totalCount]. *)
Theorem findAllAnimals_page_bounds (start limit : Z) (species : arg string)
  (rows page : list AnimalWithOwner) (totalCount : Z) :
  (0 <= start)%Z -> (0 < limit)%Z ->
  findAllAnimals (Value start) (Value limit) species (Normal rows)
  = Normal (page, totalCount) ->
  (length_of page <= limit)%Z
  /\ (length_of page <= totalCount)%Z
  /\ (totalCount <= length_of rows)%Z
  /\ (forall a, In a page -> In a rows)
  /\ ((totalCount <= start)%Z -> page = []).
Proof.
  intros Hs Hl Hrun. rewrite findAllAnimals_page in Hrun by trivial.
  injection Hrun as <- <-.
  set (matching := matching_species species rows).
  assert (Hsub : forall a, In a matching -> In a rows).
  { unfold matching, matching_species. intros a.
    destruct (truthy_string species); [|trivial].
    intros H. now apply filter_In in H. }
  assert (Hpage : forall a,
            In a (firstn (Z.to_nat limit) (skipn (Z.to_nat start) matching))
            -> In a matching).
  { intros a H. now apply page_in_rows in H. }
  assert (Hlen : (List.length matching <= List.length rows)%nat).
  { unfold matching, matching_species.
    destruct (truthy_string species); [apply filter_length_le|lia]. }
  unfold length_of. rewrite length_firstn, length_skipn.
  repeat split; try lia.
  - auto.
  - intros Hbeyond. rewrite skipn_all2 by lia. now rewrite firstn_nil.
Qed.

(** ** The oldest animals, again *)

Lemma fold_same_date (l : list Animal.t) (m : Date) :
  (forall a, In a l -> Animal.dateOfBirth a = m) ->
  fold_left
    (fun min animal =>
       if date_lt (Animal.dateOfBirth animal) min
       then Animal.dateOfBirth animal else min) l m = m.
Proof.
  induction l as [|x l IH]; simpl; intros H; [reflexivity|].
  rewrite (H x) by now left. unfold date_lt at 1. rewrite Z.ltb_irrefl.
  apply IH. intros; apply H; now right.
Qed.

(** X15. [findOldest] applied to its own result returns that result:
    the animals it returns all have the same date of birth. *)
Theorem findOldest_idempotent (animals : list Animal.t) :
  exists oldest,
    findOldest (Normal animals) = Normal oldest
    /\ findOldest (Normal oldest) = Normal oldest
    /\ forall a b, In a oldest -> In b oldest ->
                   Animal.dateOfBirth a = Animal.dateOfBirth b.
Proof.
  destruct animals as [|first rest]; [exists []; repeat split; contradiction|].
  unfold findOldest at 1. cbn [bind].
  set (m := fold_left _ (first :: rest) (Animal.dateOfBirth first)).
  set (oldest := filter _ (first :: rest)).
  assert (Hall : forall a, In a oldest -> Animal.dateOfBirth a = m).
  { intros a Ha. apply filter_In in Ha as [_ Ha]. now apply Z.eqb_eq in Ha. }
  exists oldest. split; [reflexivity|]. split.
  - unfold findOldest. cbn [bind].
    destruct oldest as [|x l] eqn:E; [reflexivity|].
    rewrite (Hall x) by now left. rewrite fold_same_date by exact Hall.
    f_equal. apply filter_all. intros a Ha.
    unfold same_ISOString. apply Z.eqb_eq. now apply Hall.
  - intros a b Ha Hb. now rewrite (Hall a), (Hall b).
Qed.

(** ** The heaviest animals, again *)

Lemma map_throwing_ownerless (l : list AnimalWithOwner)
  (a : AnimalWithOwner) :
  In a l -> owner a = None ->
  exists e, map_throwing heaviest_entry l = Throw e.
Proof.
  intros Hin Hnone. induction l as [|x l IH]; [contradiction|]. simpl.
  destruct (heaviest_entry x) as [y|e] eqn:Ex; [|cbn; eauto].
  destruct Hin as [->|Hin].
  - unfold heaviest_entry in Ex. rewrite Hnone in Ex. discriminate.
  - destruct (IH Hin) as [e ->]. cbn. eauto.
Qed.

(** X16. When an animal of maximum weight was loaded without an owner
    (the left join found none), [findHeaviestAnimal] throws the internal
    exception instead of returning the heaviest animals. *)
Theorem findHeaviestAnimal_without_owner (animals : list AnimalWithOwner)
  (a : AnimalWithOwner) :
  In a animals ->
  owner a = None ->
  (forall b, In b animals -> (Animal.weight b <= Animal.weight a)%Q) ->
  findHeaviestAnimal (Normal animals)
  = Throw (InternalServerErrorException
             "Erreur lors de la recherche de l'animal le plus lourd").
Proof.
  intros Hin Hnone Hmax.
  destruct animals as [|a0 rest]; [contradiction|].
  assert (Hheavy :
    In a (filter (fun animal : AnimalWithOwner =>
                    strict_eq (Finite (Animal.weight animal))
                      (Math_max (map (fun animal : AnimalWithOwner =>
                                        Finite (Animal.weight animal))
                                     (a0 :: rest))))
                 (a0 :: rest))).
  { apply (filter_Math_max (fun b : AnimalWithOwner => Animal.weight b)).
    now split. }
  destruct (map_throwing_ownerless _ _ Hheavy Hnone) as [e He].
  unfold findHeaviestAnimal. cbn [bind try_catch]. rewrite He. reflexivity.
Qed.

(** ** The heaviest groups *)


(** X28. [findHeaviestGroups] hands every total to one call,
    [Math.max(...totals)]: as soon as the owners are more than the
    arguments the engine accepts, the query fails with the internal
    error. *)
Theorem findHeaviestGroups_argument_limit (max_arguments : nat)
  (plus : Q -> Q -> Q) (persons : list PersonWithAnimals) :
  (max_arguments < List.length persons)%nat ->
  Engine.findHeaviestGroups max_arguments plus (Normal persons)
  = Throw (InternalServerErrorException
             "Erreur lors de la récupération des groupes d'animaux les plus lourds").
Proof.
  intros Hmany. unfold Engine.findHeaviestGroups. cbn [bind try_catch].
  rewrite Math_max_spread_beyond by now rewrite !length_map.
  reflexivity.
Qed.

(** ** The page of owners *)

(** X18. With a start that is absent, null or not negative and a limit
    that is absent, null or above 0, the owners query returns rows of the
    table and their total number: at most [limit] rows when a limit is
    given, at most 12 when it is absent or null, and the first rows of the
    table when the start is absent or null. *)
Theorem paginatedPersons_page_bounds (start limit : arg Z)
  (rows page : list PersonWithAnimals) (totalCount : Z) :
  (0 <= nullish start 0%Z)%Z -> (0 < nullish limit 12%Z)%Z ->
  paginatedPersons start limit (Normal rows) = Normal (page, totalCount) ->
  totalCount = length_of rows
  /\ (forall p, In p page -> In p rows)
  /\ (forall l, limit = Value l -> (length_of page <= l)%Z)
  /\ (limit = Undefined \/ limit = Null -> (length_of page <= 12)%Z)
  /\ (start = Undefined \/ start = Null ->
      page = firstn (Z.to_nat (nullish limit 12%Z)) rows).
Proof.
  intros Hs Hl Hrun.
  assert (Hpage :
    paginatedPersons start limit (Normal rows)
    = Normal (firstn (Z.to_nat (nullish limit 12%Z))
                (skipn (Z.to_nat (nullish start 0%Z)) rows),
              length_of rows)).
  { rewrite <- (paginatedPersons_page rows Hs Hl). reflexivity. }
  rewrite Hpage in Hrun. injection Hrun as <- <-.
  split; [reflexivity|]. split; [intros p; apply page_in_rows|].
  unfold length_of. rewrite length_firstn.
  split; [|split].
  - intros l ->. cbn in Hl |- *. lia.
  - intros [-> | ->]; cbn; lia.
  - intros [-> | ->]; reflexivity.
Qed.

(** ** The translated species of the most common species *)

Lemma map_throwing_translated (fetch : string -> Completion Response)
  (l : list (string * value)) (result : list MostCommonSpecies) :
  map_throwing
    (fun entry : string * value =>
       bind (translate fetch (fst entry))
         (fun specieTranslated =>
            Normal {| mc_species := fst entry;
                      mc_count := snd entry;
                      mc_specieTranslated := specieTranslated |})) l
  = Normal result ->
  forall r, In r result ->
            translate fetch (mc_species r) = Normal (mc_specieTranslated r).
Proof.
  revert result. induction l as [|[s c] l IH]; simpl; intros result.
  - intros [= <-] r [].
  - destruct (translate fetch s) as [t|e] eqn:Ht; cbn [bind]; [|discriminate].
    destruct (map_throwing _ l) as [rest|e]; cbn [bind]; [|discriminate].
    intros [= <-] r [<-|Hr]; [exact Ht|]. now apply (IH rest).
Qed.

(** X19. In every result of [findMostCommonSpecies], the translated
    field of an entry is what [translate] returns for the species of that
    entry: the species itself when the call fails. *)
Theorem findMostCommonSpecies_translations
  (fetch : string -> Completion Response) (animals : list Animal.t)
  (result : list MostCommonSpecies) :
  findMostCommonSpecies fetch (Normal animals) = Normal (Some result) ->
  forall r, In r result ->
    translate fetch (mc_species r) = Normal (mc_specieTranslated r)
    /\ (call_fails fetch (mc_species r) = true ->
        mc_specieTranslated r = mc_species r).
Proof.
  intros Hrun r Hr.
  assert (Ht : translate fetch (mc_species r)
               = Normal (mc_specieTranslated r)).
  { unfold findMostCommonSpecies in Hrun. cbn [bind try_catch] in Hrun.
    destruct animals as [|a0 rest]; [discriminate|].
    destruct (sort (Object_entries _)) as [|first sorted];
      cbn [bind try_catch] in Hrun; [discriminate|].
    destruct (map_throwing _ _) as [entries|e] eqn:Hmap;
      cbn [bind try_catch] in Hrun; [|discriminate].
    injection Hrun as <-.
    exact (map_throwing_translated _ _ Hmap r Hr). }
  split; [exact Ht|].
  intros Hfail. apply translate_failure in Hfail. congruence.
Qed.

(** ** The further properties at sample records *)

Lemma create_then_find_sample :
  out_of_order sample_db = None
  /\ find_person 2 sample_db = Some bob
  /\ ids_below_next sample_db
  /\ exists db',
       AnimalService_create new_pet sample_db
       = (Normal {| animal := created sample_db new_pet; owner := Some bob |},
          db')
       /\ AnimalService_findOne 4 db' = (Normal (created sample_db new_pet), db').
Proof.
  assert (Hids : ids_below_next sample_db).
  { intros r [<-|[<-|[<-|[]]]]; cbn; lia. }
  split; [reflexivity|]. split; [reflexivity|]. split; [exact Hids|].
  destruct (@create_then_find new_pet sample_db bob eq_refl eq_refl Hids)
    as (db' & Hcreate & Hfind & _).
  exists db'. split; [exact Hcreate|exact Hfind].
Defined.

Lemma update_assigns_present_fields_sample :
  AnimalService_update 1 rename_rex sample_db
  = (Normal (updated sample_db {| columns := rex; owner_id := Some 1%Z |}
               rename_rex),
     saved sample_db
       (updated sample_db {| columns := rex; owner_id := Some 1%Z |}
          rename_rex))
  /\ exists r,
       find_animal_row 1 sample_db = Some r
       /\ Animal.name
            (updated sample_db {| columns := rex; owner_id := Some 1%Z |}
               rename_rex)
          = assigned (Some "Max") (Animal.name (columns r))
       /\ Animal.color
            (updated sample_db {| columns := rex; owner_id := Some 1%Z |}
               rename_rex)
          = assigned None (Animal.color (columns r)).
Proof.
  split; [reflexivity|].
  destruct (@update_assigns_present_fields 1 rename_rex sample_db _ _ eq_refl)
    as (r & Hrow & _ & Hname & _ & _ & _ & Hcolor & _).
  exists r. split; [exact Hrow|]. split; [exact Hname|exact Hcolor].
Defined.

Lemma remove_then_find_sample :
  out_of_order sample_db = None
  /\ find_animal_row 2 sample_db
     = Some {| columns := felix; owner_id := Some 1%Z |}
  /\ exists db',
       AnimalService_remove 2 sample_db = (Normal true, db')
       /\ AnimalService_remove 2 db'
          = (Throw (NotFoundException "Animal avec l'id 2 non trouvé"), db').
Proof.
  split; [reflexivity|]. split; [reflexivity|].
  destruct (@remove_then_find 2 sample_db _ eq_refl eq_refl)
    as (db' & Hremove & _ & Hagain & _).
  exists db'. split; [exact Hremove|exact Hagain].
Defined.

Lemma PersonService_update_then_find_sample :
  out_of_order sample_db = None
  /\ find_person 2 sample_db = Some bob
  /\ exists db',
       PersonService_update 2 new_phone sample_db
       = (Normal (assign_person bob new_phone), db')
       /\ PersonService_findOne 2 db'
          = (Normal (assign_person bob new_phone), db').
Proof.
  split; [reflexivity|]. split; [reflexivity|].
  destruct (@PersonService_update_then_find 2 new_phone sample_db bob
              eq_refl eq_refl)
    as (db' & Hupdate & _ & _ & _ & _ & _ & Hfind & _).
  exists db'. split; [exact Hupdate|exact Hfind].
Defined.

Lemma removeWithAnimals_removes_both_sample :
  out_of_order sample_db = None
  /\ find_person 1 sample_db = Some alice
  /\ exists db',
       removeWithAnimals 1 sample_db = (Normal true, db')
       /\ find_person 1 db' = None
       /\ animals_of db' 1 = [].
Proof.
  split; [reflexivity|]. split; [reflexivity|].
  destruct (@removeWithAnimals_removes_both 1 sample_db alice eq_refl eq_refl)
    as (db' & Hrun & Hgone & _ & Hnone & _).
  exists db'. split; [exact Hrun|]. split; [exact Hgone|exact Hnone].
Defined.

Lemma PersonService_remove_without_animals_sample :
  out_of_order sample_db_with_carol = None
  /\ find_person 3 sample_db_with_carol = Some carol
  /\ animals_of sample_db_with_carol 3 = []
  /\ exists db',
       PersonService_remove 3 sample_db_with_carol = (Normal true, db')
       /\ find_person 3 db' = None.
Proof.
  split; [reflexivity|]. split; [reflexivity|]. split; [reflexivity|].
  destruct (@PersonService_remove_without_animals 3 sample_db_with_carol
              carol eq_refl eq_refl eq_refl)
    as (db' & Hrun & Hgone & _).
  exists db'. split; [exact Hrun|exact Hgone].
Defined.

Lemma PersonService_remove_refused_sample :
  out_of_order sample_db = None
  /\ find_person 1 sample_db = Some alice
  /\ animals_of sample_db 1 <> []
  /\ PersonService_remove 1 sample_db
     = (Throw (InternalServerErrorException
                 "Erreur lors de la suppression de la personne"),
        sample_db).
Proof.
  split; [reflexivity|]. split; [reflexivity|]. split; [discriminate|].
  apply (@PersonService_remove_refused 1 sample_db alice eq_refl eq_refl).
  discriminate.
Defined.

Lemma update_moves_animal_sample :
  out_of_order sample_db = None
  /\ find_animal_row 1 sample_db
     = Some {| columns := rex; owner_id := Some 1%Z |}
  /\ ua_ownerId (only_ownerId 2) = Some 2%Z
  /\ 2%Z <> 0%Z
  /\ find_person 2 sample_db = Some bob
  /\ exists a db',
       AnimalService_update 1 (only_ownerId 2) sample_db = (Normal a, db')
       /\ In (animal a) (animals_of db' 2).
Proof.
  split; [reflexivity|]. split; [reflexivity|]. split; [reflexivity|].
  split; [discriminate|]. split; [reflexivity|].
  destruct (@update_moves_animal 1 2 (only_ownerId 2) sample_db _ bob
              eq_refl eq_refl eq_refl ltac:(discriminate) eq_refl)
    as (a & db' & Hrun & _ & Hin & _).
  exists a, db'. split; [exact Hrun|exact Hin].
Defined.

Lemma findTopOwnersBySpecies_white_space_sample :
  ascii_only "   " = true
  /\ ascii_only " cat " = true
  /\ only_white_space "   " = true
  /\ only_white_space " cat " = false
  /\ (List.length sample_persons <= 2)%nat
  /\ Engine.findTopOwnersBySpecies 2 "   " (Normal sample_persons)
     = Throw (BadRequestException "Le champ 'species' ne peut pas être vide.")
  /\ exists top,
       Engine.findTopOwnersBySpecies 2 " cat " (Normal sample_persons)
       = Normal top.
Proof.
  split; [reflexivity|]. split; [reflexivity|]. split; [reflexivity|].
  split; [reflexivity|]. split; [apply le_n|]. split.
  - apply (proj1 (@findTopOwnersBySpecies_white_space 2 "   " eq_refl)).
    reflexivity.
  - apply (proj2 (@findTopOwnersBySpecies_white_space 2 " cat " eq_refl));
      [reflexivity|apply le_n].
Defined.

Lemma findTopOwnersBySpecies_ignores_case_sample :
  ascii_only "DoG" = true
  /\ ascii_only "dOg" = true
  /\ ascii_species sample_persons = true
  /\ same_ignoring_case "DoG" "dOg" = true
  /\ Engine.findTopOwnersBySpecies 2 "DoG" (Normal sample_persons)
     = Engine.findTopOwnersBySpecies 2 "dOg" (Normal sample_persons).
Proof.
  split; [reflexivity|]. split; [reflexivity|]. split; [reflexivity|].
  split; [reflexivity|].
  apply (proj1 (@findTopOwnersBySpecies_ignores_case 2 "DoG" "dOg"
                  (Normal sample_persons) eq_refl eq_refl
                  ltac:(intros persons [= <-]; reflexivity))).
  reflexivity.
Defined.

Lemma findAllAnimals_page_bounds_sample :
  (0 <= 1)%Z /\ (0 < 5)%Z
  /\ findAllAnimals (Value 1%Z) (Value 5%Z) (Value "DOG")
       (Normal sample_animals)
     = Normal ([{| animal := medor; owner := Some bob |}], 2%Z)
  /\ (length_of [{| animal := medor; owner := Some bob |}] <= 5)%Z
  /\ (length_of [{| animal := medor; owner := Some bob |}] <= 2)%Z.
Proof.
  split; [lia|]. split; [lia|]. split; [reflexivity|].
  destruct (@findAllAnimals_page_bounds 1 5 (Value "DOG") sample_animals
              [{| animal := medor; owner := Some bob |}] 2
              ltac:(lia) ltac:(lia) eq_refl)
    as (Hlimit & Htotal & _).
  split; [exact Hlimit|exact Htotal].
Defined.

Lemma findHeaviestAnimal_within_limit_sample :
  sample_animals <> []
  /\ forallb has_owner sample_animals = true
  /\ (List.length sample_animals <= 3)%nat
  /\ exists (maxWeight : Q) (entries : list HeaviestAnimal),
       (exists a, In a sample_animals /\ Animal.weight a = maxWeight)
       /\ (forall b, In b sample_animals -> (Animal.weight b <= maxWeight)%Q)
       /\ Engine.findHeaviestAnimal 3 (Normal sample_animals)
          = Normal (Some entries)
       /\ Forall2 carries
            (filter (fun a : AnimalWithOwner =>
                       Qeq_bool (Animal.weight a) maxWeight) sample_animals)
            entries.
Proof.
  split; [discriminate|]. split; [reflexivity|]. split; [apply le_n|].
  apply (proj2 (findHeaviestAnimal_within_limit 3 sample_animals));
    [discriminate|reflexivity|apply le_n].
Defined.



Lemma findHeaviestGroups_argument_limit_sample :
  (sample_max_arguments < List.length crowd)%nat
  /\ Engine.findHeaviestGroups sample_max_arguments Qplus (Normal crowd)
     = Throw (InternalServerErrorException
                "Erreur lors de la récupération des groupes d'animaux les plus lourds").
Proof.
  assert (H : (sample_max_arguments < List.length crowd)%nat).
  { unfold crowd, sample_max_arguments. rewrite length_map, length_seq. lia. }
  split; [exact H|].
  exact (@findHeaviestGroups_argument_limit sample_max_arguments Qplus crowd H).
Defined.


Lemma findHeaviestAnimal_without_owner_sample :
  In stray [ {| animal := felix; owner := Some alice |}; stray ]
  /\ owner stray = None
  /\ findHeaviestAnimal
       (Normal [ {| animal := felix; owner := Some alice |}; stray ])
     = Throw (InternalServerErrorException
                "Erreur lors de la recherche de l'animal le plus lourd").
Proof.
  assert (Hin : In stray [ {| animal := felix; owner := Some alice |}; stray ])
    by (right; now left).
  split; [exact Hin|]. split; [reflexivity|].
  apply (@findHeaviestAnimal_without_owner _ stray Hin eq_refl).
  intros b [<-|[<-|[]]]; cbn; unfold Qle; cbn; lia.
Defined.

Lemma paginatedPersons_page_bounds_sample :
  (0 <= nullish (@Undefined Z) 0)%Z
  /\ (0 < nullish (@Null Z) 12)%Z
  /\ paginatedPersons Undefined Null (Normal sample_persons)
     = Normal (sample_persons, 2%Z)
  /\ (length_of sample_persons <= 12)%Z.
Proof.
  split; [cbn; lia|]. split; [cbn; lia|]. split; [reflexivity|].
  destruct (@paginatedPersons_page_bounds Undefined Null sample_persons
              sample_persons 2 ltac:(cbn; lia) ltac:(cbn; lia) eq_refl)
    as (_ & _ & _ & Hdefault & _).
  apply Hdefault. now right.
Defined.

Lemma findMostCommonSpecies_translations_sample :
  findMostCommonSpecies unreachable (Normal [rex; felix; medor; felix])
  = Normal (Some [{| mc_species := "cat";
                     mc_count := VNumber (of_Z 2);
                     mc_specieTranslated := "cat" |}])
  /\ translate unreachable "cat" = Normal "cat".
Proof.
  split; [reflexivity|].
  apply (@findMostCommonSpecies_translations unreachable
           [rex; felix; medor; felix] _ eq_refl
           {| mc_species := "cat"; mc_count := VNumber (of_Z 2);
              mc_specieTranslated := "cat" |}).
  now left.
Defined.

Lemma findMostCommonSpecies_plain_sample :
  [rex; felix; medor; felix] <> []
  /\ forallb (fun a => plain_species (Animal.species a))
             [rex; felix; medor; felix] = true
  /\ exists result,
       findMostCommonSpecies unreachable (Normal [rex; felix; medor; felix])
       = Normal (Some result)
       /\ NoDup (map mc_species result).
Proof.
  split; [discriminate|]. split; [reflexivity|].
  destruct (@findMostCommonSpecies_plain unreachable
              [rex; felix; medor; felix] ltac:(discriminate) eq_refl)
    as (result & Hrun & Hnodup & _).
  exists result. split; [exact Hrun|exact Hnodup].
Defined.

Lemma create_unknown_owner_sample :
  out_of_order sample_db = None
  /\ find_person 99 sample_db = None
  /\ AnimalService_create
       {| ca_name := "Tweety"; ca_dateOfBirth := 0%Z; ca_species := "Bird";
          ca_breed := "Canary"; ca_color := "Yellow"; ca_weight := 0.02%Q;
          ca_ownerId := 99 |} sample_db
     = (Throw (NotFoundException "Propriétaire avec l'id 99 non trouvé"),
        sample_db).
Proof.
  split; [reflexivity|]. split; [reflexivity|].
  apply (@create_unknown_owner
           {| ca_name := "Tweety"; ca_dateOfBirth := 0%Z;
              ca_species := "Bird"; ca_breed := "Canary";
              ca_color := "Yellow"; ca_weight := 0.02%Q; ca_ownerId := 99 |}
           sample_db eq_refl eq_refl).
Defined.

Lemma update_unknown_owner_sample :
  out_of_order sample_db = None
  /\ find_animal_row 1 sample_db
     = Some {| columns := rex; owner_id := Some 1%Z |}
  /\ 99%Z <> 0%Z
  /\ find_person 99 sample_db = None
  /\ AnimalService_update 1 (only_ownerId 99) sample_db
     = (Throw (NotFoundException "Propriétaire avec l'id 99 non trouvé"),
        sample_db).
Proof.
  split; [reflexivity|]. split; [reflexivity|]. split; [discriminate|].
  split; [reflexivity|].
  apply (@update_unknown_owner 1 99 (only_ownerId 99) sample_db _
           eq_refl eq_refl eq_refl ltac:(discriminate) eq_refl).
Defined.
